(** * swim-adsb: the AirTraffic adapter ([swim_adsb/adsb/air_traffic.py])

    A shallow embedding of the [AirTraffic] class: the join of live state
    vectors with the arrivals or departures of an airport, the retrieval
    wrappers around the OpenSky client, the look-back time window and the
    memoised state snapshot.

    Python values are embedded as follows.
    - An attribute read with [getattr(x, name, None)] is an [option]:
      [None] stands both for a missing attribute and for the value [None].
    - A [dict] is an insertion-ordered association list without duplicate
      keys ([PyDict]): assigning to an existing key overwrites the value in
      place, a new key is appended.
    - Latitude and longitude are only transported, never computed on; they
      are rationals here.
    - The timestamps of the time window are binary64 floats ([Float64]).
    - A computation that can raise returns an [outcome]; one that also
      writes to the log is a [py] computation. *)

From Stdlib Require Import Floats.
From Stdlib Require Import List String Bool ZArith QArith Lia.
Import ListNotations.

Local Open Scope Z_scope.
Local Open Scope list_scope.

(* ===================================================================== *)
(** * Python dictionaries *)
(* ===================================================================== *)

Module PyDict.

Definition t (V : Type) : Type := list (string * V).

Definition empty {V : Type} : t V := [].

(** [d.get(k)] *)
Fixpoint get {V : Type} (k : string) (d : t V) : option V :=
  match d with
  | [] => None
  | (k', v) :: d' => if String.eqb k k' then Some v else get k d'
  end.

(** [k in d] *)
Definition contains {V : Type} (k : string) (d : t V) : bool :=
  match get k d with
  | Some _ => true
  | None => false
  end.

(** [d[k] = v] *)
Fixpoint set {V : Type} (k : string) (v : V) (d : t V) : t V :=
  match d with
  | [] => [(k, v)]
  | (k', v') :: d' =>
      if String.eqb k k' then (k', v) :: d' else (k', v') :: set k v d'
  end.

(** [d.items()], in insertion order *)
Definition items {V : Type} (d : t V) : list (string * V) := d.

Definition keys {V : Type} (d : t V) : list string := map fst d.

(** [{key: value for x in xs if cond}]: [entry x] is [None] when the
    condition rejects [x], and the key-value pair otherwise. *)
Definition comprehension_step {A V : Type}
    (entry : A -> option (string * V)) (d : t V) (x : A) : t V :=
  match entry x with
  | Some (k, v) => set k v d
  | None => d
  end.

Definition comprehension {A V : Type} (entry : A -> option (string * V))
    (xs : list A) : t V :=
  fold_left (comprehension_step entry) xs empty.

End PyDict.

(* ===================================================================== *)
(** * Truthiness and [or] *)
(* ===================================================================== *)

(** [bool(s)] for an optional string: [None] and [""] are falsy. *)
Definition truthy (o : option string) : bool :=
  match o with
  | Some s => negb (String.eqb s "")
  | None => false
  end.

(** [o or d] for an optional string [o] and a string [d] *)
Definition str_or (o : option string) (d : string) : string :=
  match o with
  | Some s => if truthy o then s else d
  | None => d
  end.

(** [o or []] for an optional list *)
Definition list_or {A : Type} (o : option (list A)) : list A :=
  match o with
  | Some (x :: l) => x :: l
  | Some [] => []
  | None => []
  end.

(* ===================================================================== *)
(** * Data model *)
(* ===================================================================== *)

(** The attributes of an OpenSky state vector that the adapter reads. *)
Module StateVector.
Record t : Type := mk {
  icao24 : option string;
  latitude : option Q;
  longitude : option Q;
  last_contact : option Z
}.
End StateVector.

(** The attributes of an OpenSky arrival or departure that the adapter
    reads. *)
Module FlightData.
Record t : Type := mk {
  icao24 : option string;
  estDepartureAirport : option string;
  estArrivalAirport : option string
}.
End FlightData.

(** [AirTrafficDataType]: the reduced record, a dict with the six keys
    ['icao24'], ['lat'], ['lng'], ['from'], ['to'], ['last_contact']. *)
Module AirTrafficData.
Record t : Type := mk {
  icao24 : option string;
  lat : option Q;
  lng : option Q;
  from : string;
  to : string;
  last_contact : option Z
}.
End AirTrafficData.

(* ===================================================================== *)
(** * The join *)
(* ===================================================================== *)

Definition unknown_airport : string := "Unknown airport".

(** [AirTraffic._get_flight_data] *)
Definition _get_flight_data (state : option StateVector.t)
    (flight_connection : FlightData.t) : AirTrafficData.t :=
  let from_airport :=
    str_or (FlightData.estDepartureAirport flight_connection) unknown_airport in
  let to_airport :=
    str_or (FlightData.estArrivalAirport flight_connection) unknown_airport in
  match state with
  | None =>
      AirTrafficData.mk (FlightData.icao24 flight_connection) None None
        from_airport to_airport None
  | Some state =>
      AirTrafficData.mk (StateVector.icao24 state)
        (StateVector.latitude state) (StateVector.longitude state)
        from_airport to_airport (StateVector.last_contact state)
  end.

(** One step of the comprehension
    [{fc.icao24: fc for fc in flight_connections if fc.icao24}]. *)
Definition connection_entry (fc : FlightData.t)
    : option (string * FlightData.t) :=
  match FlightData.icao24 fc with
  | Some k => if truthy (FlightData.icao24 fc) then Some (k, fc) else None
  | None => None
  end.

Definition flight_connections_dict (flight_connections : list FlightData.t)
    : PyDict.t FlightData.t :=
  PyDict.comprehension connection_entry flight_connections.

(** [{icao24: fc for icao24, fc in flight_connections_dict.items()
      if icao24 in states_dict}] *)
Definition flight_connections_with_state
    (states_dict : PyDict.t StateVector.t)
    (fcd : PyDict.t FlightData.t) : PyDict.t FlightData.t :=
  PyDict.comprehension
    (fun item : string * FlightData.t =>
       if PyDict.contains (fst item) states_dict then Some item else None)
    (PyDict.items fcd).

(** The arguments of the calls of [_get_flight_data] made by the final list
    comprehension, in order. *)
Definition join_calls (states_dict : PyDict.t StateVector.t)
    (flight_connections : list FlightData.t)
    : list (option StateVector.t * FlightData.t) :=
  map (fun item : string * FlightData.t =>
         (PyDict.get (fst item) states_dict, snd item))
      (PyDict.items
         (flight_connections_with_state states_dict
            (flight_connections_dict flight_connections))).

(** The join on a list of connections already retrieved. *)
Definition join (states_dict : PyDict.t StateVector.t)
    (flight_connections : list FlightData.t) : list AirTrafficData.t :=
  map (fun call => _get_flight_data (fst call) (snd call))
      (join_calls states_dict flight_connections).

(** [AirTraffic._flight_connection_handler] *)
Definition _flight_connection_handler (airport : string)
    (states_dict : PyDict.t StateVector.t)
    (get_flight_connections_handler : string -> option (list FlightData.t))
    : list AirTrafficData.t :=
  let flight_connections := list_or (get_flight_connections_handler airport) in
  join states_dict flight_connections.

(** The dictionary built by [get_states_dict] from the retrieved states:
    [{state.icao24: state for state in states if state.icao24}]. *)
Definition state_entry (state : StateVector.t)
    : option (string * StateVector.t) :=
  match StateVector.icao24 state with
  | Some k => if truthy (StateVector.icao24 state) then Some (k, state) else None
  | None => None
  end.

Definition states_to_dict (states : list StateVector.t)
    : PyDict.t StateVector.t :=
  PyDict.comprehension state_entry states.

(** The documented shape of the [states_dict] parameter, "mapping of
    icao24 -> current StateVector": every key is the non-empty identifier of
    the state stored under it. *)
Definition keyed_by_icao24 (states_dict : PyDict.t StateVector.t) : Prop :=
  forall k sv, PyDict.get k states_dict = Some sv ->
    StateVector.icao24 sv = Some k /\ k <> ""%string.

(** The test [state is None] that guards the defensive branch of
    [_get_flight_data]. *)
Definition takes_defensive_branch (state : option StateVector.t) : bool :=
  match state with
  | None => true
  | Some _ => false
  end.

(** The records of an output that carry the identifier [k]. *)
Definition records_for (k : string) (data : list AirTrafficData.t)
    : list AirTrafficData.t :=
  filter (fun r => match AirTrafficData.icao24 r with
                   | Some k' => String.eqb k k'
                   | None => false
                   end) data.

(** The record [r] has the position and last contact of the state [sv] and
    the airports of the connection [fc]. *)
Definition carries (r : AirTrafficData.t) (sv : StateVector.t)
    (fc : FlightData.t) : Prop :=
  AirTrafficData.lat r = StateVector.latitude sv /\
  AirTrafficData.lng r = StateVector.longitude sv /\
  AirTrafficData.last_contact r = StateVector.last_contact sv /\
  AirTrafficData.from r =
    str_or (FlightData.estDepartureAirport fc) unknown_airport /\
  AirTrafficData.to r =
    str_or (FlightData.estArrivalAirport fc) unknown_airport.

(** "Exactly one record for the identifier of every connection that has a
    state, carrying that state and the airports of that connection", on one
    input of the join. *)
Definition one_record_per_connection
    (states_dict : PyDict.t StateVector.t)
    (flight_connections : list FlightData.t) : Prop :=
  forall fc k sv,
    In fc flight_connections ->
    FlightData.icao24 fc = Some k ->
    PyDict.get k states_dict = Some sv ->
    exists r,
      records_for k (join states_dict flight_connections) = [r] /\
      carries r sv fc.

(** ** The example of the specification *)

Definition example_state : StateVector.t :=
  StateVector.mk (Some "abc123"%string) (Some (10 # 1)) (Some (20 # 1))
    (Some 1000).

Definition example_states_dict : PyDict.t StateVector.t :=
  [("abc123"%string, example_state)].

Definition example_departure : FlightData.t :=
  FlightData.mk (Some "abc123"%string) (Some "EDDF"%string) None.

(** The departures of "EDDF"; no other airport has any. *)
Definition example_departures_handler (airport : string)
    : option (list FlightData.t) :=
  if String.eqb airport "EDDF" then Some [example_departure] else Some [].

(** The same aircraft seen twice in the window, on two legs. *)
Definition example_two_legs : list FlightData.t :=
  [FlightData.mk (Some "abc123"%string) (Some "EDDF"%string)
     (Some "LFPG"%string);
   FlightData.mk (Some "abc123"%string) (Some "LFPG"%string) None].

(* ===================================================================== *)
(** * Exceptions and logging *)
(* ===================================================================== *)

(** An exception raised by a provider call: an instance of a subclass of
    [Exception], the class that the retrieval wrappers name in their
    [except] clauses.  Signals outside that class ([KeyboardInterrupt],
    [SystemExit]) are not failures of the provider and are not part of this
    model. *)
Record exn : Type := Exn { exn_class : string; exn_message : string }.

(** The records written through [_logger.error]. *)
Inductive log_record : Type :=
| ConnectionsError (icao : string) (begin end_ : Z) (e : exn)
| StatesError (e : exn).

Inductive outcome (A : Type) : Type :=
| Returns (a : A)
| Raises (e : exn).
Arguments Returns {A} a.
Arguments Raises {A} e.

(** A Python computation: it reads and extends the log and either returns
    or raises. *)
Definition py (A : Type) : Type :=
  list log_record -> outcome A * list log_record.

Definition ret {A : Type} (a : A) : py A := fun log => (Returns a, log).

Definition raise {A : Type} (e : exn) : py A := fun log => (Raises e, log).

Definition bind {A B : Type} (m : py A) (f : A -> py B) : py B :=
  fun log =>
    match m log with
    | (Returns a, log') => f a log'
    | (Raises e, log') => (Raises e, log')
    end.

(** [try: body  except Exception as e: handler(e)] *)
Definition try_except {A : Type} (body : py A) (handler : exn -> py A)
    : py A :=
  fun log =>
    match body log with
    | (Returns a, log') => (Returns a, log')
    | (Raises e, log') => handler e log'
    end.

Definition logger_error (r : log_record) : py unit :=
  fun log => (Returns tt, log ++ [r]).

Notation "x <- m ;; k" := (bind m (fun x => k))
  (at level 61, m at next level, right associativity).
Notation "m ;;; k" := (bind m (fun _ => k))
  (at level 61, right associativity).

(** A step that only returns or raises: it leaves the log as it is. *)
Definition lift {A : Type} (o : outcome A) : py A := fun log => (o, log).

(* ===================================================================== *)
(** * Floating-point numbers *)
(* ===================================================================== *)

(** Python's [float] is an IEEE 754 binary64 number.  A finite one is
    [mant * 2 ^ expo] for integers [mant] and [expo]; every operation
    returns the exact result rounded to 53 significant bits, ties to the
    even significand.  Overflow to infinity and the subnormal numbers are
    left out: the numbers handled here are a whole number of seconds that
    fits a 64-bit integer, a number of microseconds over a million, and the
    sum of the two. *)
Module Float64.

Record float : Type := F { mant : Z; expo : Z }.

(** [num / den] rounded to the nearest integer, a tie to the even one
    ([0 < den]). *)
Definition rne (num den : Z) : Z :=
  let k := num / den in
  match 2 * (num mod den) ?= den with
  | Lt => k
  | Gt => k + 1
  | Eq => if Z.even k then k else k + 1
  end.

(** The binary exponent of [p / q]: the [k] with
    [2 ^ k <= p / q < 2 ^ (k + 1)], for [0 < p] and [0 < q]. *)
Definition ilog2 (p q : Z) : Z :=
  if q <=? p then Z.log2 (p / q) else - Z.log2_up ((q + p - 1) / p).

(** The float nearest to [p / q], for [0 < p] and [0 < q]: the quotient is
    scaled so that its integer part has 53 bits, and rounded. *)
Definition round_pos (p q : Z) : float :=
  let sh := 52 - ilog2 p q in
  F (if 0 <=? sh then rne (p * 2 ^ sh) q else rne p (q * 2 ^ (- sh)))
    (- sh).

Definition round_ratio (p q : Z) : float :=
  match p ?= 0 with
  | Eq => F 0 0
  | Gt => round_pos p q
  | Lt => let f := round_pos (- p) q in F (- mant f) (expo f)
  end.

(** The conversion of an integer to a float. *)
Definition of_int (z : Z) : float := round_ratio z 1.

(** [a / b] for two floats that hold the integers [a] and [b]. *)
Definition div_int (a b : Z) : float := round_ratio a b.

(** [a + b] *)
Definition add (a b : float) : float :=
  let e := Z.min (expo a) (expo b) in
  let p := mant a * 2 ^ (expo a - e) + mant b * 2 ^ (expo b - e) in
  if 0 <=? e then round_ratio (p * 2 ^ e) 1 else round_ratio p (2 ^ (- e)).

(** [int(a)]: truncation toward zero. *)
Definition to_int (a : float) : Z :=
  if 0 <=? expo a then mant a * 2 ^ expo a
  else Z.quot (mant a) (2 ^ (- expo a)).

(** The same number as a primitive binary64 float of the proof assistant,
    for a significand below [2 ^ 63]. *)
Definition to_prim (a : float) : PrimFloat.float :=
  let m := PrimFloat.of_uint63 (Uint63.of_Z (Z.abs (mant a))) in
  let m := if mant a <? 0 then PrimFloat.opp m else m in
  PrimFloat.ldshiftexp m (Uint63.of_Z (expo a + 2101)).

End Float64.

(* ===================================================================== *)
(** * The look-back time window *)
(* ===================================================================== *)

(** A naive local [datetime]: the calendar date as its proleptic Gregorian
    ordinal ([date.toordinal()], 1 for 0001-01-01 up to 3652059 for
    9999-12-31), the wall-clock time, and the [fold] flag that tells the two
    readings of a repeated wall-clock hour apart. *)
Module Datetime.

Record datetime : Type := mk {
  ordinal : Z;
  hour : Z;
  minute : Z;
  second : Z;
  microsecond : Z;
  fold : bool
}.

Definition MAXORDINAL : Z := 3652059.

(** The exception of a date or span out of range.  Its class is what the
    program fixes; the wording of the message differs between the
    implementations of [datetime]. *)
Definition overflow_error (message : string) : exn :=
  Exn "OverflowError" message.

(** [timedelta(days=n)]: the span of [n] days; a [timedelta] holds at most
    999999999 days in either direction. *)
Definition timedelta (n : Z) : outcome Z :=
  if Z.abs n <=? 999999999 then Returns n
  else Raises (overflow_error "days out of range for timedelta").

(** [dt - delta] for a [delta] of whole days: the same wall-clock time
    [days] days earlier, with [fold] cleared; the date has to stay between
    the years 1 and 9999. *)
Definition sub_days (dt : datetime) (days : Z) : outcome datetime :=
  let o := ordinal dt - days in
  if (1 <=? o) && (o <=? MAXORDINAL) then
    Returns (mk o (hour dt) (minute dt) (second dt) (microsecond dt) false)
  else Raises (overflow_error "date value out of range").

(** [dt.replace(hour=h, minute=m, second=s, microsecond=us)]: the date and
    [fold] are kept. *)
Definition replace (dt : datetime) (h m s us : Z) : datetime :=
  mk (ordinal dt) h m s us (fold dt).

(** [int(x)] on a float *)
Definition int (x : Float64.float) : Z := Float64.to_int x.

Section LocalTime.

(** The platform's conversion of a local calendar date, wall-clock time
    (hour, minute, second) and [fold] to whole seconds since the epoch; it
    depends on the time zone of the process, and raises where the platform
    cannot convert. *)
Variable mktime : Z -> Z -> Z -> Z -> bool -> outcome Z.

(** [dt.timestamp()] of a naive datetime: the whole seconds as a float plus
    the microseconds divided by the float [1e6]. *)
Definition timestamp (dt : datetime) : outcome Float64.float :=
  match mktime (ordinal dt) (hour dt) (minute dt) (second dt) (fold dt) with
  | Raises e => Raises e
  | Returns seconds =>
      Returns (Float64.add (Float64.of_int seconds)
                 (Float64.div_int (microsecond dt) 1000000))
  end.

End LocalTime.

End Datetime.

(** [AirTraffic._days_span_in_timestamps]; [today] is the reading of
    [datetime.today()] made by this call. *)
Definition _days_span_in_timestamps
    (mktime : Z -> Z -> Z -> Z -> bool -> outcome Z)
    (traffic_time_span_in_days : Z) (today : Datetime.datetime)
    : outcome (Z * Z) :=
  let last_day := today in
  match Datetime.timedelta traffic_time_span_in_days with
  | Raises e => Raises e
  | Returns delta =>
  match Datetime.sub_days last_day delta with
  | Raises e => Raises e
  | Returns first_day =>
  let start_of_first_day := Datetime.replace first_day 0 0 0 0 in
  let end_of_last_day := Datetime.replace last_day 23 59 59 999999 in
  match Datetime.timestamp mktime start_of_first_day with
  | Raises e => Raises e
  | Returns t0 =>
  match Datetime.timestamp mktime end_of_last_day with
  | Raises e => Raises e
  | Returns t1 => Returns (Datetime.int t0, Datetime.int t1)
  end end end end.


(** The seconds from 1970-01-01 00:00:00 to a wall-clock time read as UTC:
    day 719163 is 1970-01-01. *)
Definition utc_seconds (ord h m s : Z) : Z :=
  (ord - 719163) * 86400 + h * 3600 + m * 60 + s.

(** Local time in a process whose time zone is UTC. *)
Definition mktime_utc (ord h m s : Z) (fold : bool) : outcome Z :=
  Returns (utc_seconds ord h m s).

(** 2026-11-03 14:36:05.123456 *)
Definition example_today : Datetime.datetime :=
  Datetime.mk 739923 14 36 5 123456 false.



(* ===================================================================== *)
(** * Retrieval *)
(* ===================================================================== *)

(** The object returned by [client.get_states()]: only [states] is read. *)
Record OpenSkyStates : Type := { states : option (list StateVector.t) }.

(** [AirTraffic._get_states]; [client_get_states] is the provider call. *)
Definition _get_states (client_get_states : py (option OpenSkyStates))
    : py (list StateVector.t) :=
  try_except
    (states_obj <- client_get_states ;;
     match states_obj with
     | None => ret []
     | Some o => ret (list_or (states o))
     end)
    (fun e => logger_error (StatesError e) ;;; ret []).

(** [AirTraffic._flight_connections_today]; [callback] is the provider
    call, [get_arrivals_by_airport] or [get_departures_by_airport].  The
    window is read before the [try] statement is entered. *)
Definition _flight_connections_today
    (mktime : Z -> Z -> Z -> Z -> bool -> outcome Z)
    (traffic_time_span_in_days : Z) (today : Datetime.datetime)
    (icao : string)
    (callback : string -> Z -> Z -> py (option (list FlightData.t)))
    : py (list FlightData.t) :=
  span <- lift (_days_span_in_timestamps mktime traffic_time_span_in_days
                  today) ;;
  let '(begin, end_) := span in
  try_except
    (r <- callback icao begin end_ ;; ret (list_or r))
    (fun e => logger_error (ConnectionsError icao begin end_ e) ;;; ret []).

(** The provider behaviours that count as a failed or empty fetch of the
    states: an exception, [None], or an object whose [states] is [None] or
    empty. *)
Definition states_failure (r : outcome (option OpenSkyStates)) : Prop :=
  match r with
  | Raises _ => True
  | Returns None => True
  | Returns (Some o) => states o = None \/ states o = Some []
  end.

(** The same for the connections: an exception, [None] or an empty list. *)
Definition connections_failure (r : outcome (option (list FlightData.t)))
    : Prop :=
  match r with
  | Raises _ => True
  | Returns None => True
  | Returns (Some l) => l = []
  end.

(** The reading of C4 as it is worded, for [_flight_connections_today]:
    whatever the provider call does, the function returns a list. *)
Definition connections_never_propagate : Prop :=
  forall (mktime : Z -> Z -> Z -> Z -> bool -> outcome Z) (n : Z)
    (today : Datetime.datetime) (icao : string)
    (callback : string -> Z -> Z -> py (option (list FlightData.t)))
    (log0 : list log_record),
    exists fcs log1,
      _flight_connections_today mktime n today icao callback log0 =
        (Returns fcs, log1).

(** A provider that is unreachable, and one that answers. *)
Definition example_timeout : exn := Exn "ReadTimeout" "timed out".

Definition client_unreachable : py (option OpenSkyStates) :=
  raise example_timeout.

Definition client_answers : py (option OpenSkyStates) :=
  ret (Some {| states := Some [example_state] |}).

Definition callback_unreachable (icao : string) (begin end_ : Z)
    : py (option (list FlightData.t)) :=
  raise example_timeout.

(* ===================================================================== *)
(** * The memoising decorator *)
(* ===================================================================== *)

(** [x < y] on clock readings, as a boolean. *)
Definition Qlt_bool (x y : Q) : bool := negb (Qle_bool y x).

(** [cachetools.TTLCache], as its documentation and the decorator use it:
    items in least-recently-used order, each with the clock reading at which
    it expires; every item has size 1. *)
Module TTLCache.

Section Cache.

Variables K V : Type.
Variable K_eq_dec : forall x y : K, {x = y} + {x <> y}.

Record link : Type := mk_link { key : K; value : V; expires : Q }.

Record t : Type := mk { maxsize : nat; ttl : Q; links : list link }.

Definition with_links (c : t) (ls : list link) : t :=
  mk (maxsize c) (ttl c) ls.

Definition has_key (k : K) (l : link) : bool :=
  if K_eq_dec k (key l) then true else false.

Definition find (k : K) (ls : list link) : option link :=
  List.find (has_key k) ls.

Definition remove (k : K) (ls : list link) : list link :=
  filter (fun l => negb (has_key k l)) ls.

(** Looking a link up marks it as the most recently used. *)
Definition move_to_end (k : K) (ls : list link) : list link :=
  match find k ls with
  | Some l => remove k ls ++ [l]
  | None => ls
  end.

(** [expire(time)]: drop the items that are no longer live at [time].  The
    library walks the items from the oldest store on and stops at the first
    live one; with one time-to-live for all and a clock that never runs
    backwards, the items it drops are those that this filter drops. *)
Definition expire (time : Q) (ls : list link) : list link :=
  filter (fun l => Qlt_bool time (expires l)) ls.

(** [cache[k]] at clock reading [time]; [None] is [KeyError]. *)
Definition getitem (time : Q) (k : K) (c : t) : option V * t :=
  match find k (links c) with
  | None => (None, c)
  | Some l =>
      let c' := with_links c (move_to_end k (links c)) in
      if Qlt_bool time (expires l) then (Some (value l), c') else (None, c')
  end.

(** [cache[k] = v] at clock reading [time]: expired items go first, then
    least recently used ones until the new item fits; a cache that cannot
    hold one item refuses the value ([ValueError], which the decorator
    ignores). *)
Definition setitem (time : Q) (k : K) (v : V) (c : t) : t :=
  let live := expire time (links c) in
  if Nat.ltb (maxsize c) 1 then with_links c live
  else
    let kept :=
      match find k live with
      | Some _ => live
      | None => skipn (List.length live + 1 - maxsize c) live
      end in
    with_links c (remove k kept ++ [mk_link k v (time + ttl c)]).

(** The invariant of the cache: no key twice, and no more items than
    [maxsize]. *)
Definition wf (c : t) : Prop :=
  NoDup (map key (links c)) /\ (List.length (links c) <= maxsize c)%nat.

(** The item [(k0, v0, e0)] is among the links, and the items used more
    recently than it have their keys in [touched]. *)
Definition holds (k0 : K) (v0 : V) (e0 : Q) (touched : list K)
    (ls : list link) : Prop :=
  exists pre post, ls = pre ++ mk_link k0 v0 e0 :: post /\
    incl (map key post) touched.

End Cache.

Arguments wf {K V} _.
Arguments holds {K V} _ _ _ _ _.
Arguments mk_link {K V} _ _ _.
Arguments key {K V} _.
Arguments value {K V} _.
Arguments expires {K V} _.
Arguments mk {K V} _ _ _.
Arguments maxsize {K V} _.
Arguments ttl {K V} _.
Arguments links {K V} _.
Arguments with_links {K V} _ _.
Arguments has_key {K V} _ _ _.
Arguments find {K V} _ _ _.
Arguments remove {K V} _ _ _.
Arguments move_to_end {K V} _ _ _.
Arguments expire {K V} _ _.
Arguments getitem {K V} _ _ _ _.
Arguments setitem {K V} _ _ _ _ _.

End TTLCache.

(** The hashable values a caller may pass as [context]. *)
Inductive pyval : Type :=
| PyNone
| PyInt (n : Z)
| PyStr (s : string).

(** How [get_states_dict] is called: [get_states_dict()],
    [get_states_dict(c)] or [get_states_dict(context=c)]. *)
Inductive call_args : Type :=
| NoArgs
| Positional (context : pyval)
| Keyword (context : pyval).

(** [cachetools.keys.hashkey(self, *args, **kwargs)], the default key of
    [cached]: the instance (compared by identity) with the arguments of the
    call. *)
Definition hashkey : Type := (nat * call_args)%type.

Definition pyval_eq_dec (x y : pyval) : {x = y} + {x <> y}.
Proof.
  decide equality; [apply Z.eq_dec | apply string_dec].
Defined.

Definition call_args_eq_dec (x y : call_args) : {x = y} + {x <> y}.
Proof.
  decide equality; apply pyval_eq_dec.
Defined.

Definition hashkey_eq_dec (x y : hashkey) : {x = y} + {x <> y}.
Proof.
  decide equality; [apply call_args_eq_dec | apply Nat.eq_dec].
Defined.

(** A dictionary object is named by its address: the index at which it was
    allocated in the heap. *)
Definition ref : Type := nat.

(** What the calls of [get_states_dict] share: the cache of the decorator
    (one per class), the dictionaries allocated so far and the log. *)
Record world : Type := mk_world {
  cache : TTLCache.t hashkey ref;
  heap : list (PyDict.t StateVector.t);
  log : list log_record
}.

(** [TTLCache(maxsize=1024, ttl=30)] before any call. *)
Definition states_cache_init : TTLCache.t hashkey ref :=
  TTLCache.mk 1024%nat 30%Q [].

Definition world_init : world := mk_world states_cache_init [] [].

(** One call of the decorated [get_states_dict]. *)
Record call : Type := mk_call {
  self : nat;
  args : call_args;
  (** the clock reading of the cache lookup *)
  t_lookup : Q;
  (** the clock reading of the cache store, made when the lookup missed *)
  t_store : Q;
  (** what [self.client.get_states()] does during this call *)
  client_get_states : py (option OpenSkyStates)
}.

(** The cache key of a call: [hashkey(self, *args, **kwargs)]. *)
Definition call_key (c : call) : hashkey := (self c, args c).

Definition set_cache (w : world) (c : TTLCache.t hashkey ref) : world :=
  mk_world c (heap w) (log w).

(** The wrapper that [cachetools.cached] puts around a function, on a call
    whose key is [k]: a hit returns the stored value without running the
    function; a miss runs it and stores what it returns.  The clock is read
    once by the lookup and once by the store. *)
Definition cached (k : hashkey) (t_lookup t_store : Q)
    (func : world -> outcome ref * world) (w : world)
    : outcome ref * world :=
  match TTLCache.getitem hashkey_eq_dec t_lookup k (cache w) with
  | (Some v, cache') => (Returns v, set_cache w cache')
  | (None, cache') =>
      match func (set_cache w cache') with
      | (Returns v, w') =>
          (Returns v,
           set_cache w'
             (TTLCache.setitem hashkey_eq_dec t_store k v (cache w')))
      | (Raises e, w') => (Raises e, w')
      end
  end.

(** The body of [get_states_dict]: the comprehension builds a new
    dictionary object from the retrieved states. *)
Definition get_states_dict_body
    (client_get_states : py (option OpenSkyStates)) (w : world)
    : outcome ref * world :=
  match _get_states client_get_states (log w) with
  | (Returns sts, log') =>
      (Returns (List.length (heap w)),
       mk_world (cache w) (heap w ++ [states_to_dict sts]) log')
  | (Raises e, log') => (Raises e, mk_world (cache w) (heap w) log')
  end.

(** [AirTraffic.get_states_dict], decorated with
    [@cached(cache=TTLCache(maxsize=1024, ttl=30))]. *)
Definition get_states_dict (c : call) (w : world) : outcome ref * world :=
  cached (call_key c) (t_lookup c) (t_store c)
    (get_states_dict_body (client_get_states c)) w.

(** A sequence of calls, with the result of each. *)
Fixpoint run_calls (cs : list call) (w : world)
    : list (outcome ref) * world :=
  match cs with
  | [] => ([], w)
  | c :: cs' =>
      let '(r, w') := get_states_dict c w in
      let '(rs, w'') := run_calls cs' w' in
      (r :: rs, w'')
  end.

(** What every reachable world satisfies: the invariant of the cache, with
    the parameters the decorator was given. *)
Definition world_wf (w : world) : Prop :=
  TTLCache.wf (cache w) /\
  TTLCache.maxsize (cache w) = 1024%nat /\
  TTLCache.ttl (cache w) = 30%Q.

(** Both clock readings of a call are earlier than [e]. *)
Definition before (e : Q) (c : call) : Prop :=
  (t_lookup c < e)%Q /\ (t_store c < e)%Q.

(** Two calls by the same instance with the same argument list. *)
Definition same_arguments (c c' : call) : Prop :=
  self c = self c' /\ args c = args c'.

(** The lookup of the call misses: the call runs the body and fills its
    slot. *)
Definition fills (c : call) (w : world) : Prop :=
  fst (TTLCache.getitem hashkey_eq_dec (t_lookup c) (call_key c) (cache w))
  = None.


(** [states_dict = self.get_states_dict()], the call made by
    [arrivals_handler] and by [departures_handler]. *)
Definition handler_call (self : nat) (t_lookup t_store : Q)
    (client_get_states : py (option OpenSkyStates)) : call :=
  mk_call self NoArgs t_lookup t_store client_get_states.

(** A handler runs; one second later another caller passes a delivery
    context. *)
Definition example_first_call : call :=
  handler_call 0 0%Q 0%Q client_answers.

Definition example_second_call : call :=
  mk_call 0 (Positional (PyStr "ctx")) 1%Q 1%Q client_answers.

(** A handler runs again, 29 seconds after the first time. *)
Definition example_third_call : call :=
  handler_call 0 29%Q 29%Q client_unreachable.

(* ===================================================================== *)
(** * The rest of the adapter *)
(* ===================================================================== *)

(** ** Order and origin of the records *)

(** The identifiers under which the connections enter the mapping, in the
    order of the list. *)
Definition identifiers (flight_connections : list FlightData.t)
    : list string :=
  flat_map (fun fc => match connection_entry fc with
                      | Some (k, _) => [k]
                      | None => []
                      end) flight_connections.

(** A list of strings without the repetitions of an earlier element. *)
Fixpoint first_occurrences (l : list string) : list string :=
  match l with
  | [] => []
  | x :: l' =>
      x :: filter (fun y => negb (String.eqb x y)) (first_occurrences l')
  end.

(** [sv] is the last state of the list with the identifier [k]. *)
Definition last_state_with (k : string) (sts : list StateVector.t)
    (sv : StateVector.t) : Prop :=
  exists l1 l2, sts = l1 ++ sv :: l2 /\
    StateVector.icao24 sv = Some k /\
    forall sv', In sv' l2 -> StateVector.icao24 sv' <> Some k.

(** [fc] is the last connection of the list with the identifier [k]. *)
Definition last_connection_with (k : string) (fcs : list FlightData.t)
    (fc : FlightData.t) : Prop :=
  exists l1 l2, fcs = l1 ++ fc :: l2 /\
    FlightData.icao24 fc = Some k /\
    forall fc', In fc' l2 -> FlightData.icao24 fc' <> Some k.

(** ** Local time at a fixed offset from UTC *)


(** ** Construction *)

(** [x or y] on optional strings: [x] when it is truthy, [y] otherwise. *)
Definition opt_or (x y : option string) : option string :=
  if truthy x then x else y.

(** The credentials that [__init__] takes as keyword arguments. *)
Module Credentials.
Record t : Type := mk {
  username : option string;
  password : option string;
  client_id : option string;
  client_secret : option string;
  token_url : option string;
  scope : option string
}.
End Credentials.

(** The two ways in which [__init__] constructs the OpenSky client, with
    the arguments it passes; the session is an opaque object. *)
Inductive OpenSkyApi : Type :=
| OAuth2Api (client_id client_secret token_url scope : option string)
    (session : option nat)
| BasicApi (username password : option string) (session : option nat).

(** The message that [__init__] logs. *)
Inductive info_record : Type :=
| InfoOAuth2
| InfoBasicAuth
| InfoAnonymous.

Module AirTraffic.
Record t : Type := mk {
  traffic_time_span_in_days : Z;
  client : OpenSkyApi
}.
End AirTraffic.

(** The block under [if use_env_credentials:]; [getenv] is [os.getenv]. *)
Definition fill_from_env (getenv : string -> option string)
    (c : Credentials.t) : Credentials.t :=
  let client_id := opt_or (Credentials.client_id c) (getenv "OPENSKY_CLIENT_ID"%string) in
  let client_secret :=
    opt_or (Credentials.client_secret c) (getenv "OPENSKY_CLIENT_SECRET"%string) in
  let token_url := opt_or (Credentials.token_url c) (getenv "OPENSKY_TOKEN_URL"%string) in
  let scope := opt_or (Credentials.scope c) (getenv "OPENSKY_SCOPE"%string) in
  let username := opt_or (Credentials.username c) (getenv "OPENSKY_USERNAME"%string) in
  let password := opt_or (Credentials.password c) (getenv "OPENSKY_PASSWORD"%string) in
  Credentials.mk username password client_id client_secret token_url scope.

(** [AirTraffic.__init__]: the instance and the message logged. *)
Definition __init__ (traffic_time_span_in_days : Z) (given : Credentials.t)
    (session : option nat) (use_env_credentials : bool)
    (getenv : string -> option string) : AirTraffic.t * info_record :=
  let c := if use_env_credentials then fill_from_env getenv given else given in
  if truthy (Credentials.client_id c) && truthy (Credentials.client_secret c)
  then
    (AirTraffic.mk traffic_time_span_in_days
       (OAuth2Api (Credentials.client_id c) (Credentials.client_secret c)
          (Credentials.token_url c) (Credentials.scope c) session),
     InfoOAuth2)
  else
    (AirTraffic.mk traffic_time_span_in_days
       (BasicApi (Credentials.username c) (Credentials.password c) session),
     if truthy (Credentials.username c) && truthy (Credentials.password c)
     then InfoBasicAuth else InfoAnonymous).

(** An environment with OAuth2 credentials and a legacy account. *)
Definition example_getenv (name : string) : option string :=
  if String.eqb name "OPENSKY_CLIENT_ID"%string then Some "env-id"%string
  else if String.eqb name "OPENSKY_CLIENT_SECRET"%string then Some "env-secret"%string
  else if String.eqb name "OPENSKY_USERNAME"%string then Some "env-user"%string
  else if String.eqb name "OPENSKY_PASSWORD"%string then Some "env-pass"%string
  else None.

Definition no_credentials : Credentials.t :=
  Credentials.mk None None None None None None.

(** ** The cached retrieval of the connections *)

(** [hashkey(self, icao)]: the key of a call of [_arrivals_today_handler] or
    [_departures_today_handler]. *)
Definition airport_key : Type := (nat * string)%type.

Definition airport_key_eq_dec (x y : airport_key) : {x = y} + {x <> y}.
Proof.
  decide equality; [apply string_dec | apply Nat.eq_dec].
Defined.

Definition connections_key (self : nat) (icao : string) : airport_key :=
  (self, icao).

(** [TTLCache(maxsize=1024, ttl=600)] before any call; each of the two
    handlers has its own. *)
Definition connections_cache_init
    : TTLCache.t airport_key (list FlightData.t) :=
  TTLCache.mk 1024%nat 600%Q [].

(** The wrapper of [cachetools.cached] around a function that reads and
    extends the log. *)
Definition cached_connections (k : airport_key) (t_lookup t_store : Q)
    (func : py (list FlightData.t))
    (c : TTLCache.t airport_key (list FlightData.t))
    (log0 : list log_record)
    : outcome (list FlightData.t)
      * TTLCache.t airport_key (list FlightData.t) * list log_record :=
  match TTLCache.getitem airport_key_eq_dec t_lookup k c with
  | (Some v, c') => (Returns v, c', log0)
  | (None, c') =>
      match func log0 with
      | (Returns v, log1) =>
          (Returns v, TTLCache.setitem airport_key_eq_dec t_store k v c', log1)
      | (Raises e, log1) => (Raises e, c', log1)
      end
  end.

(** What one call of a cached connection handler finds around it: the day,
    the two clock readings of the cache, and what the provider call does. *)
Record fetch : Type := mk_fetch {
  f_today : Datetime.datetime;
  f_lookup : Q;
  f_store : Q;
  f_callback : string -> Z -> Z -> py (option (list FlightData.t))
}.

(** [AirTraffic._arrivals_today_handler] and
    [AirTraffic._departures_today_handler]: the same wrapper around
    [_flight_connections_today], the first on the cache of the arrivals with
    [client.get_arrivals_by_airport] as callback, the second on the cache
    of the departures with [client.get_departures_by_airport]. *)
Definition _connections_today_handler
    (mktime : Z -> Z -> Z -> Z -> bool -> outcome Z)
    (traffic_time_span_in_days : Z) (self : nat) (icao : string) (f : fetch)
    (c : TTLCache.t airport_key (list FlightData.t))
    (log0 : list log_record)
    : outcome (list FlightData.t)
      * TTLCache.t airport_key (list FlightData.t) * list log_record :=
  cached_connections (connections_key self icao) (f_lookup f) (f_store f)
    (_flight_connections_today mktime traffic_time_span_in_days (f_today f)
       icao (f_callback f))
    c log0.

(** A sequence of calls of one of the two handlers, on its cache; each call
    comes with the span of days of its instance, the instance, the airport
    and what it finds around it.  A call that raises leaves the cache as
    its lookup left it, and the next call goes on from there. *)
Fixpoint run_fetches (mktime : Z -> Z -> Z -> Z -> bool -> outcome Z)
    (calls : list (Z * nat * string * fetch))
    (c : TTLCache.t airport_key (list FlightData.t))
    (log0 : list log_record)
    : TTLCache.t airport_key (list FlightData.t) * list log_record :=
  match calls with
  | [] => (c, log0)
  | (n, self, icao, f) :: calls' =>
      let '(_, c1, log1) :=
        _connections_today_handler mktime n self icao f c log0 in
      run_fetches mktime calls' c1 log1
  end.

(** Both clock readings of a fetch are earlier than [e]. *)
Definition fetch_before (e : Q) (call : Z * nat * string * fetch) : Prop :=
  (f_lookup (snd call) < e)%Q /\ (f_store (snd call) < e)%Q.

(** What every reachable cache of a connection handler satisfies. *)
Definition connections_cache_wf
    (c : TTLCache.t airport_key (list FlightData.t)) : Prop :=
  TTLCache.wf c /\
  TTLCache.maxsize c = 1024%nat /\
  TTLCache.ttl c = 600%Q.

(** The lookup of a call of a connection handler misses. *)
Definition fetch_fills (self : nat) (icao : string) (f : fetch)
    (c : TTLCache.t airport_key (list FlightData.t)) : Prop :=
  fst (TTLCache.getitem airport_key_eq_dec (f_lookup f)
         (connections_key self icao) c) = None.

(** ** The public handlers *)

(** The proton [Message] that a handler returns. *)
Module Message.
Record t : Type := mk { body : string; content_type : string }.
End Message.

(** The state of an instance between two calls of its handlers: the world
    of [get_states_dict] and the caches of the two connection handlers. *)
Record service : Type := mk_service {
  sv_world : world;
  sv_arrivals : TTLCache.t airport_key (list FlightData.t);
  sv_departures : TTLCache.t airport_key (list FlightData.t)
}.

(** What one call of a handler finds around it: the clock readings and the
    provider call of the snapshot, and those of the connections. *)
Record surroundings : Type := mk_surroundings {
  s_lookup : Q;
  s_store : Q;
  s_get_states : py (option OpenSkyStates);
  s_fetch : fetch
}.

(** The dictionary at an address; an address handed out by
    [get_states_dict] is always allocated. *)
Definition deref (w : world) (r : ref) : PyDict.t StateVector.t :=
  nth r (heap w) PyDict.empty.

Definition set_log (w : world) (log1 : list log_record) : world :=
  mk_world (cache w) (heap w) log1.

(** The state of the class before any call. *)
Definition service_init : service :=
  mk_service world_init connections_cache_init connections_cache_init.

(** A call of one of the two public handlers on some instance. *)
Inductive direction : Type :=
| Arrivals
| Departures.

Record request : Type := mk_request {
  q_direction : direction;
  q_instance : AirTraffic.t;
  q_self : nat;
  q_airport : string;
  q_around : surroundings
}.

(** Both clock readings that the request makes for the snapshot are earlier
    than [e]. *)
Definition request_before (e : Q) (q : request) : Prop :=
  (s_lookup (q_around q) < e)%Q /\ (s_store (q_around q) < e)%Q.

(** The call of [get_states_dict] that the request makes. *)
Definition request_states_call (q : request) : call :=
  handler_call (q_self q) (s_lookup (q_around q)) (s_store (q_around q))
    (s_get_states (q_around q)).

(** The cache of the connection handler that the request uses. *)
Definition request_cache (q : request) (s : service)
    : TTLCache.t airport_key (list FlightData.t) :=
  match q_direction q with
  | Arrivals => sv_arrivals s
  | Departures => sv_departures s
  end.

(** The window that the connection handler of the request computes when its
    lookup misses. *)
Definition request_window (mktime : Z -> Z -> Z -> Z -> bool -> outcome Z)
    (q : request) : outcome (Z * Z) :=
  _days_span_in_timestamps mktime
    (AirTraffic.traffic_time_span_in_days (q_instance q))
    (f_today (s_fetch (q_around q))).

(** The call of the connection handler that the request makes, on the log
    that its call of [get_states_dict] leaves. *)
Definition request_connections
    (mktime : Z -> Z -> Z -> Z -> bool -> outcome Z) (q : request)
    (s : service)
    : outcome (list FlightData.t)
      * TTLCache.t airport_key (list FlightData.t) * list log_record :=
  _connections_today_handler mktime
    (AirTraffic.traffic_time_span_in_days (q_instance q)) (q_self q)
    (q_airport q) (s_fetch (q_around q)) (request_cache q s)
    (log (snd (get_states_dict (request_states_call q) (sv_world s)))).

Section Handlers.

Variable mktime : Z -> Z -> Z -> Z -> bool -> outcome Z.

(** [json.dumps] on the list of records. *)
Variable json_dumps : list AirTrafficData.t -> string.

(** The body shared by [arrivals_handler] and [departures_handler], on the
    cache [c] of the connection handler that the caller passes down: the
    snapshot, then the join, whose first step calls the connection handler
    once with the airport, then the message.  It returns the cache of the
    connection handler beside the message. *)
Definition handler_body (inst : AirTraffic.t) (self : nat) (airport : string)
    (around : surroundings) (w : world)
    (c : TTLCache.t airport_key (list FlightData.t))
    : outcome Message.t * world
      * TTLCache.t airport_key (list FlightData.t) :=
  match get_states_dict
          (handler_call self (s_lookup around) (s_store around)
             (s_get_states around)) w with
  | (Raises e, w1) => (Raises e, w1, c)
  | (Returns r, w1) =>
      let states_dict := deref w1 r in
      match _connections_today_handler mktime
              (AirTraffic.traffic_time_span_in_days inst) self airport
              (s_fetch around) c (log w1) with
      | (Raises e, c1, log1) => (Raises e, set_log w1 log1, c1)
      | (Returns fcs, c1, log1) =>
          let data :=
            _flight_connection_handler airport states_dict
              (fun _ => Some fcs) in
          (Returns (Message.mk (json_dumps data) "application/json"),
           set_log w1 log1, c1)
      end
  end.

(** [AirTraffic.arrivals_handler] *)
Definition arrivals_handler (inst : AirTraffic.t) (self : nat)
    (airport : string) (around : surroundings) (s : service)
    : outcome Message.t * service :=
  let '(m, w1, c1) :=
    handler_body inst self airport around (sv_world s) (sv_arrivals s) in
  (m, mk_service w1 c1 (sv_departures s)).

(** [AirTraffic.departures_handler] *)
Definition departures_handler (inst : AirTraffic.t) (self : nat)
    (airport : string) (around : surroundings) (s : service)
    : outcome Message.t * service :=
  let '(m, w1, c1) :=
    handler_body inst self airport around (sv_world s) (sv_departures s) in
  (m, mk_service w1 (sv_arrivals s) c1).

Definition handle (q : request) (s : service) : outcome Message.t * service :=
  match q_direction q with
  | Arrivals =>
      arrivals_handler (q_instance q) (q_self q) (q_airport q) (q_around q) s
  | Departures =>
      departures_handler (q_instance q) (q_self q) (q_airport q) (q_around q) s
  end.

(** A sequence of handler calls, with the result of each. *)
Fixpoint run_handlers (qs : list request) (s : service)
    : list (outcome Message.t) * service :=
  match qs with
  | [] => ([], s)
  | q :: qs' =>
      let '(m, s1) := handle q s in
      let '(ms, s2) := run_handlers qs' s1 in
      (m :: ms, s2)
  end.

End Handlers.

(** A provider call that answers with one departure. *)
Definition callback_answers (icao : string) (begin end_ : Z)
    : py (option (list FlightData.t)) :=
  ret (Some [example_departure]).

(** The provider fails; five minutes later it would answer. *)
Definition example_failed_fetch : fetch :=
  mk_fetch example_today 0%Q 0%Q callback_unreachable.

Definition example_later_fetch : fetch :=
  mk_fetch example_today 300%Q 300%Q callback_answers.

Definition example_instance : AirTraffic.t :=
  AirTraffic.mk 7 (BasicApi None None None).

(** The states provider is down while the departures of "EDDF" are asked
    for; 29 seconds later it is up again and the arrivals are asked for. *)
Definition example_outage : request :=
  mk_request Departures example_instance 0 "EDDF"
    (mk_surroundings 0%Q 0%Q client_unreachable
       (mk_fetch example_today 0%Q 0%Q callback_answers)).

Definition example_recovered : request :=
  mk_request Arrivals example_instance 0 "EDDF"
    (mk_surroundings 29%Q 29%Q client_answers
       (mk_fetch example_today 29%Q 29%Q callback_answers)).

(** The states provider answers while the connections provider is down. *)
Definition example_connections_outage : request :=
  mk_request Arrivals example_instance 0 "EDDF"
    (mk_surroundings 0%Q 0%Q client_answers example_failed_fetch).

(** An instance that looks a million days back: earlier than the year 1. *)
Definition example_far_instance : AirTraffic.t :=
  AirTraffic.mk 1000000 (BasicApi None None None).

Definition example_far_request : request :=
  mk_request Arrivals example_far_instance 1 "EDDF"
    (mk_surroundings 0%Q 0%Q client_answers
       (mk_fetch example_today 0%Q 0%Q callback_answers)).

(** A serialisation that keeps the number of records, for the examples. *)
Definition example_dumps (data : list AirTrafficData.t) : string :=
  match data with
  | [] => "[]"
  | _ :: _ => "[...]"
  end.

(* ===================================================================== *)
(** * Facts about dictionaries *)
(* ===================================================================== *)

Module PyDictFacts.
Import PyDict.

Section Facts.

Context {V : Type}.
Implicit Types (d : PyDict.t V) (k : string) (v : V).

Lemma get_set k k' v d :
  get k (set k' v d) = if String.eqb k k' then Some v else get k d.
Proof.
  induction d as [|[k0 v0] d IH]; simpl.
  - destruct (String.eqb_spec k k'); reflexivity.
  - destruct (String.eqb_spec k' k0) as [->|Hne]; simpl.
    + destruct (String.eqb_spec k k0); reflexivity.
    + rewrite IH. destruct (String.eqb_spec k k0) as [->|]; [|reflexivity].
      destruct (String.eqb_spec k0 k'); congruence.
Qed.

Lemma get_None_keys k d : get k d = None <-> ~ In k (keys d).
Proof.
  induction d as [|[k0 v0] d IH]; simpl.
  - tauto.
  - destruct (String.eqb_spec k k0) as [->|Hne].
    + split; [discriminate | intros H; exfalso; apply H; now left].
    + rewrite IH. split; [intros H [E|I]; congruence | tauto].
Qed.

Lemma get_Some_In k v d : get k d = Some v -> In (k, v) d.
Proof.
  induction d as [|[k0 v0] d IH]; simpl; [discriminate|].
  destruct (String.eqb_spec k k0) as [->|Hne].
  - intros [= ->]. now left.
  - intros H. right. auto.
Qed.

Lemma In_get k v d : NoDup (keys d) -> In (k, v) d -> get k d = Some v.
Proof.
  induction d as [|[k0 v0] d IH]; simpl; [tauto|].
  intros Hnd [E|I].
  - injection E as -> ->. now rewrite String.eqb_refl.
  - inversion Hnd as [|? ? Hnotin Hnd']; subst.
    destruct (String.eqb_spec k k0) as [->|Hne]; [|auto].
    exfalso. apply Hnotin. change (In (fst (k0, v)) (map fst d)).
    now apply in_map.
Qed.

Lemma contains_true k d : contains k d = true <-> exists v, get k d = Some v.
Proof.
  unfold contains. destruct (get k d) as [v|].
  - split; [eauto | reflexivity].
  - split; [discriminate | intros [v H]; discriminate].
Qed.

Lemma set_fresh k v d : ~ In k (keys d) -> set k v d = d ++ [(k, v)].
Proof.
  induction d as [|[k0 v0] d IH]; simpl; [reflexivity|].
  intros H. destruct (String.eqb_spec k k0) as [->|Hne]; [tauto|].
  f_equal. apply IH. tauto.
Qed.

Lemma keys_set_In k k' v d : In k (keys (set k' v d)) <-> k = k' \/ In k (keys d).
Proof.
  induction d as [|[k0 v0] d IH]; simpl.
  - intuition congruence.
  - destruct (String.eqb_spec k' k0) as [->|Hne]; simpl.
    + intuition congruence.
    + rewrite IH. intuition congruence.
Qed.

Lemma keys_set_NoDup k v d : NoDup (keys d) -> NoDup (keys (set k v d)).
Proof.
  induction d as [|[k0 v0] d IH]; simpl; intros Hnd.
  - constructor; [simpl; tauto | constructor].
  - inversion Hnd as [|? ? Hnotin Hnd']; subst.
    destruct (String.eqb_spec k k0) as [->|Hne]; simpl.
    + now constructor.
    + constructor; [|auto].
      change (~ In k0 (keys (set k v d))). rewrite keys_set_In.
      intros [E|I]; [congruence | contradiction].
Qed.

Lemma filter_set (p : string -> bool) k v d :
  filter (fun it => p (fst it)) (set k v d) =
  if p k then set k v (filter (fun it => p (fst it)) d)
  else filter (fun it => p (fst it)) d.
Proof.
  induction d as [|[k0 v0] d IH]; simpl.
  - destruct (p k); reflexivity.
  - destruct (String.eqb_spec k k0) as [->|Hne]; simpl.
    + destruct (p k0); simpl; [now rewrite String.eqb_refl | reflexivity].
    + rewrite IH. destruct (p k0) eqn:E0, (p k) eqn:Ek; simpl; try reflexivity.
      destruct (String.eqb_spec k k0); [congruence | reflexivity].
Qed.

End Facts.

Section Comprehension.

Context {A V : Type} (entry : A -> option (string * V)).

Lemma comprehension_snoc xs x :
  comprehension entry (xs ++ [x]) =
  comprehension_step entry (comprehension entry xs) x.
Proof. unfold comprehension. now rewrite fold_left_app. Qed.

Lemma fold_keys_NoDup xs (d : PyDict.t V) :
  NoDup (keys d) -> NoDup (keys (fold_left (comprehension_step entry) xs d)).
Proof.
  revert d. induction xs as [|x xs IH]; simpl; intros d Hnd; [assumption|].
  apply IH. unfold comprehension_step.
  destruct (entry x) as [[k v]|]; [now apply keys_set_NoDup | assumption].
Qed.

Lemma comprehension_NoDup xs : NoDup (keys (comprehension entry xs)).
Proof. apply fold_keys_NoDup. constructor. Qed.

(** Later elements that do not produce the key [k] leave its entry as it
    is. *)
Lemma fold_get_other k xs (d : PyDict.t V) :
  (forall x v, In x xs -> entry x <> Some (k, v)) ->
  get k (fold_left (comprehension_step entry) xs d) = get k d.
Proof.
  revert d. induction xs as [|x xs IH]; simpl; intros d H; [reflexivity|].
  rewrite IH by (intros; apply H; now right).
  unfold comprehension_step.
  destruct (entry x) as [[k' v']|] eqn:E; [|reflexivity].
  rewrite get_set. destruct (String.eqb_spec k k') as [->|]; [|reflexivity].
  exfalso. apply (H x v'); [now left | assumption].
Qed.

(** The value under [k] comes from the last element that produces [k]. *)
Lemma comprehension_get_last k v xs :
  get k (comprehension entry xs) = Some v <->
  exists l1 x l2, xs = l1 ++ x :: l2 /\ entry x = Some (k, v) /\
    forall y v', In y l2 -> entry y <> Some (k, v').
Proof.
  split.
  - induction xs as [|y xs IH] using rev_ind; [discriminate|].
    rewrite comprehension_snoc. unfold comprehension_step.
    destruct (entry y) as [[k' v']|] eqn:E.
    + rewrite get_set. destruct (String.eqb_spec k k') as [->|Hne].
      * intros [= ->]. exists xs, y, []. repeat split; [assumption|].
        intros ? ? [].
      * intros H. destruct (IH H) as (l1 & x & l2 & -> & Hx & Hl2).
        exists l1, x, (l2 ++ [y]). rewrite <- app_assoc. repeat split; trivial.
        intros z v0 Hin. apply in_app_or in Hin as [Hin|[<-|[]]]; [eauto|].
        congruence.
    + intros H. destruct (IH H) as (l1 & x & l2 & -> & Hx & Hl2).
      exists l1, x, (l2 ++ [y]). rewrite <- app_assoc. repeat split; trivial.
      intros z v0 Hin. apply in_app_or in Hin as [Hin|[<-|[]]]; [eauto|].
      congruence.
  - intros (l1 & x & l2 & -> & Hx & Hl2). unfold comprehension.
    rewrite fold_left_app. simpl. rewrite fold_get_other by eauto.
    unfold comprehension_step at 1. rewrite Hx, get_set.
    now rewrite String.eqb_refl.
Qed.

Lemma comprehension_get_In k v xs :
  get k (comprehension entry xs) = Some v ->
  exists x, In x xs /\ entry x = Some (k, v).
Proof.
  intros H. apply comprehension_get_last in H as (l1 & x & l2 & -> & Hx & _).
  exists x. split; [apply in_elt | assumption].
Qed.

Lemma comprehension_get_None k xs :
  get k (comprehension entry xs) = None <->
  forall x v, In x xs -> entry x <> Some (k, v).
Proof.
  split.
  - induction xs as [|y xs IH] using rev_ind; [intros _ ? ? []|].
    rewrite comprehension_snoc. unfold comprehension_step.
    intros H x v Hin. apply in_app_or in Hin as [Hin|[<-|[]]].
    + apply IH; [|assumption].
      destruct (entry y) as [[k' v']|]; [|assumption].
      rewrite get_set in H. now destruct (String.eqb k k').
    + intros E. rewrite E, get_set, String.eqb_refl in H. discriminate.
  - intros H. unfold comprehension. now rewrite fold_get_other.
Qed.

(** Filtering the elements by key before the comprehension, or the
    dictionary after it, gives the same dictionary. *)
Lemma fold_filter (p : string -> bool) xs (d : PyDict.t V) :
  filter (fun it => p (fst it)) (fold_left (comprehension_step entry) xs d) =
  fold_left (comprehension_step entry)
    (filter (fun x => match entry x with
                      | Some (k, _) => p k
                      | None => true
                      end) xs)
    (filter (fun it => p (fst it)) d).
Proof.
  revert d. induction xs as [|x xs IH]; simpl; intros d; [reflexivity|].
  rewrite IH. unfold comprehension_step at 2.
  destruct (entry x) as [[k v]|] eqn:E.
  - rewrite filter_set. destruct (p k); simpl; [|reflexivity].
    unfold comprehension_step at 3. now rewrite E.
  - simpl. unfold comprehension_step at 3. now rewrite E.
Qed.

Lemma comprehension_filter (p : string -> bool) xs :
  filter (fun it => p (fst it)) (comprehension entry xs) =
  comprehension entry
    (filter (fun x => match entry x with
                      | Some (k, _) => p k
                      | None => true
                      end) xs).
Proof. unfold comprehension. now rewrite fold_filter. Qed.

End Comprehension.

(** Re-building a dictionary from its own items under a condition on the
    key is a filter. *)
Lemma fold_items_filter {V : Type} (c : string -> bool) (d acc : PyDict.t V) :
  NoDup (keys (acc ++ d)) ->
  fold_left
    (comprehension_step (fun it : string * V => if c (fst it) then Some it else None))
    d acc
  = acc ++ filter (fun it => c (fst it)) d.
Proof.
  revert acc. induction d as [|[k v] d IH]; simpl; intros acc Hnd.
  - now rewrite app_nil_r.
  - unfold comprehension_step at 2. simpl.
    unfold keys in Hnd. rewrite map_app in Hnd. simpl in Hnd.
    destruct (c k) eqn:Ec.
    + rewrite set_fresh.
      * rewrite IH; [now rewrite <- app_assoc|].
        unfold keys. rewrite <- app_assoc, map_app. simpl.
        apply NoDup_Add with (a := k) (l := map fst acc ++ map fst d).
        -- apply Add_app.
        -- now apply NoDup_remove.
      * apply NoDup_remove_2 in Hnd. intros Hin. apply Hnd.
        apply in_or_app. now left.
    + apply IH. unfold keys. rewrite map_app. now apply NoDup_remove_1 in Hnd.
Qed.

Lemma comprehension_items_filter {V : Type} (c : string -> bool) (d : PyDict.t V) :
  NoDup (keys d) ->
  comprehension (fun it : string * V => if c (fst it) then Some it else None)
    (items d)
  = filter (fun it => c (fst it)) d.
Proof. intros H. unfold comprehension, items. now rewrite fold_items_filter. Qed.

End PyDictFacts.

(* ===================================================================== *)
(** * Facts about the join *)
(* ===================================================================== *)

Section JoinFacts.
Import PyDictFacts.

Lemma truthy_Some k : truthy (Some k) = true <-> k <> ""%string.
Proof.
  simpl. destruct (String.eqb_spec k ""); simpl; split; intros H;
    try reflexivity; try assumption; try discriminate; contradiction.
Qed.

Lemma connection_entry_Some fc k v :
  connection_entry fc = Some (k, v) <->
  FlightData.icao24 fc = Some k /\ k <> ""%string /\ v = fc.
Proof.
  unfold connection_entry. destruct (FlightData.icao24 fc) as [k0|] eqn:E.
  - destruct (truthy (Some k0)) eqn:T.
    + apply truthy_Some in T. split.
      * intros [= -> ->]. auto.
      * intros ([= ->] & _ & ->). reflexivity.
    + split; [discriminate|]. intros ([= ->] & Hk & _).
      apply truthy_Some in Hk. congruence.
  - split; [discriminate | intros ([=] & _)].
Qed.

Lemma connection_entry_None fc :
  connection_entry fc = None <-> truthy (FlightData.icao24 fc) = false.
Proof.
  unfold connection_entry. destruct (FlightData.icao24 fc) as [k0|] eqn:E.
  - destruct (truthy (Some k0)); split; congruence.
  - simpl. tauto.
Qed.

Lemma state_entry_Some sv k v :
  state_entry sv = Some (k, v) <->
  StateVector.icao24 sv = Some k /\ k <> ""%string /\ v = sv.
Proof.
  unfold state_entry. destruct (StateVector.icao24 sv) as [k0|] eqn:E.
  - destruct (truthy (Some k0)) eqn:T.
    + apply truthy_Some in T. split.
      * intros [= -> ->]. auto.
      * intros ([= ->] & _ & ->). reflexivity.
    + split; [discriminate|]. intros ([= ->] & Hk & _).
      apply truthy_Some in Hk. congruence.
  - split; [discriminate | intros ([=] & _)].
Qed.

Lemma state_entry_None sv :
  state_entry sv = None <-> truthy (StateVector.icao24 sv) = false.
Proof.
  unfold state_entry. destruct (StateVector.icao24 sv) as [k0|] eqn:E.
  - destruct (truthy (Some k0)); split; congruence.
  - simpl. tauto.
Qed.

(** The snapshot that [get_states_dict] builds has the documented shape. *)
Lemma states_to_dict_keyed sts : keyed_by_icao24 (states_to_dict sts).
Proof.
  intros k sv H. unfold states_to_dict in H.
  apply comprehension_get_In in H as (x & _ & Hx).
  apply state_entry_Some in Hx as (Hk & Hne & ->). auto.
Qed.

(** The second comprehension keeps, in order, the entries whose key is in
    the state mapping. *)
Lemma flight_connections_with_state_filter sd fcs :
  flight_connections_with_state sd (flight_connections_dict fcs) =
  filter (fun it => PyDict.contains (fst it) sd) (flight_connections_dict fcs).
Proof.
  unfold flight_connections_with_state.
  apply (comprehension_items_filter (fun k => PyDict.contains k sd)).
  apply comprehension_NoDup.
Qed.

Lemma join_calls_filter sd fcs :
  join_calls sd fcs =
  map (fun it : string * FlightData.t => (PyDict.get (fst it) sd, snd it))
    (filter (fun it => PyDict.contains (fst it) sd) (flight_connections_dict fcs)).
Proof.
  unfold join_calls, PyDict.items.
  now rewrite flight_connections_with_state_filter.
Qed.

(** Every call of [_get_flight_data] made by the join comes from a key of
    both mappings. *)
Lemma join_calls_In sd fcs st fc :
  In (st, fc) (join_calls sd fcs) ->
  exists k sv, st = Some sv /\ PyDict.get k sd = Some sv /\
    PyDict.get k (flight_connections_dict fcs) = Some fc.
Proof.
  rewrite join_calls_filter, in_map_iff.
  intros ([k fc'] & [= <- <-] & Hin). simpl.
  apply filter_In in Hin as [Hin Hc]. simpl in Hc.
  apply contains_true in Hc as [sv Hsv].
  exists k, sv. repeat split; trivial.
  apply In_get; [apply comprehension_NoDup | assumption].
Qed.

Lemma join_calls_complete sd fcs k sv fc :
  PyDict.get k sd = Some sv ->
  PyDict.get k (flight_connections_dict fcs) = Some fc ->
  In (Some sv, fc) (join_calls sd fcs).
Proof.
  intros Hsv Hfc. rewrite join_calls_filter, in_map_iff.
  exists (k, fc). simpl. split; [now rewrite Hsv|].
  apply filter_In. split; [now apply get_Some_In|].
  simpl. apply contains_true. eauto.
Qed.

(** A connection without a state leaves the join as it is. *)
Lemma join_drop_connection sd l1 fc l2 :
  (forall k, FlightData.icao24 fc = Some k -> PyDict.contains k sd = false) ->
  join sd (l1 ++ fc :: l2) = join sd (l1 ++ l2).
Proof.
  intros Habs. unfold join. f_equal. rewrite !join_calls_filter. f_equal.
  unfold flight_connections_dict.
  rewrite !(comprehension_filter connection_entry (fun k => PyDict.contains k sd)).
  destruct (connection_entry fc) as [[k v]|] eqn:E.
  - pose proof E as E'. apply connection_entry_Some in E' as (Hk & _ & _).
    rewrite !filter_app. simpl. now rewrite E, (Habs k Hk).
  - rewrite !filter_app. simpl. rewrite E.
    unfold PyDict.comprehension. rewrite !fold_left_app. simpl.
    unfold PyDict.comprehension_step at 2. now rewrite E.
Qed.

Lemma str_or_spec o d :
  str_or o d = match o with
               | Some s => if String.eqb s "" then d else s
               | None => d
               end.
Proof.
  destruct o as [s|]; simpl; [|reflexivity]. now destruct (String.eqb s "").
Qed.

End JoinFacts.

(* ===================================================================== *)
(** * The join: inner join on the aircraft identifier *)
(* ===================================================================== *)

Section JoinClaims.
Import PyDictFacts.

Lemma comprehension_skip {A V : Type} (entry : A -> option (string * V))
    (l1 : list A) (x : A) (l2 : list A) :
  entry x = None ->
  PyDict.comprehension entry (l1 ++ x :: l2) =
  PyDict.comprehension entry (l1 ++ l2).
Proof.
  intros E. unfold PyDict.comprehension. rewrite !fold_left_app. simpl.
  unfold PyDict.comprehension_step at 2. now rewrite E.
Qed.

Lemma filter_none {A : Type} (f : A -> bool) (l : list A) :
  (forall x, In x l -> f x = false) -> filter f l = [].
Proof.
  induction l as [|a l IH]; simpl; intros H; [reflexivity|].
  rewrite (H a) by now left. apply IH. intros; apply H; now right.
Qed.

Lemma filter_map_comm {A B : Type} (f : B -> bool) (g : A -> B) (l : list A) :
  filter f (map g l) = map g (filter (fun a => f (g a)) l).
Proof.
  induction l as [|a l IH]; simpl; [reflexivity|].
  rewrite IH. now destruct (f (g a)).
Qed.

Lemma filter_key_single {V : Type} (k : string) (v : V) (d : PyDict.t V) :
  NoDup (PyDict.keys d) -> In (k, v) d ->
  filter (fun it => String.eqb k (fst it)) d = [(k, v)].
Proof.
  induction d as [|[k0 v0] d IH]; simpl; [tauto|].
  intros Hnd Hin. inversion Hnd as [|? ? Hnotin Hnd']; subst.
  destruct Hin as [E|Hin].
  - injection E as -> ->. rewrite String.eqb_refl. f_equal.
    apply filter_none. intros [k1 v1] H1. simpl.
    destruct (String.eqb_spec k k1) as [<-|]; [|reflexivity].
    exfalso. apply Hnotin. change (In (fst (k, v1)) (map fst d)).
    now apply in_map.
  - destruct (String.eqb_spec k k0) as [->|Hne]; [|auto].
    exfalso. apply Hnotin. change (In (fst (k0, v)) (map fst d)).
    now apply in_map.
Qed.

(** C1: every record of the handler's output is made from a key of the
    state mapping that is the identifier of some connection of the list, and
    carries the identifier of the state under that key, which is the key
    itself in a mapping from identifiers to their states; the output is
    empty when no connection's identifier has a state, and a connection
    whose identifier has no state can be removed from the list without
    changing the output. *)
Theorem handler_emits_only_matched (airport : string)
    (states_dict : PyDict.t StateVector.t)
    (handler : string -> option (list FlightData.t)) :
  let flight_connections := list_or (handler airport) in
  let data := _flight_connection_handler airport states_dict handler in
  (forall r, In r data ->
     exists k sv fc,
       PyDict.get k states_dict = Some sv /\
       In fc flight_connections /\ FlightData.icao24 fc = Some k /\
       AirTrafficData.icao24 r = StateVector.icao24 sv /\
       (keyed_by_icao24 states_dict -> AirTrafficData.icao24 r = Some k))
  /\ ((forall fc k, In fc flight_connections ->
         FlightData.icao24 fc = Some k ->
         PyDict.contains k states_dict = false) ->
      data = [])
  /\ (forall l1 fc l2,
        flight_connections = l1 ++ fc :: l2 ->
        (forall k, FlightData.icao24 fc = Some k ->
           PyDict.contains k states_dict = false) ->
        data = join states_dict (l1 ++ l2)).
Proof.
  intros fcs data. subst data. unfold _flight_connection_handler.
  fold fcs. repeat split.
  - intros r Hr. unfold join in Hr.
    apply in_map_iff in Hr as ([st fc] & <- & Hcall). simpl.
    apply join_calls_In in Hcall as (k & sv & -> & Hsv & Hfc).
    apply comprehension_get_In in Hfc as (x & Hx & Ex).
    apply connection_entry_Some in Ex as (Ex & _).
    exists k, sv, x. simpl. repeat split; trivial.
    intros Hkeyed. apply (Hkeyed k sv Hsv).
  - intros Hnone. unfold join.
    destruct (join_calls states_dict fcs) as [|[st fc] l] eqn:E; [reflexivity|].
    assert (Hin : In (st, fc) (join_calls states_dict fcs))
      by (rewrite E; now left).
    apply join_calls_In in Hin as (k & sv & -> & Hsv & Hfc).
    apply comprehension_get_In in Hfc as (x & Hx & Ex).
    apply connection_entry_Some in Ex as (Ek & _).
    specialize (Hnone x k Hx Ek).
    unfold PyDict.contains in Hnone. rewrite Hsv in Hnone. discriminate.
  - intros l1 fc l2 -> Habs. now apply join_drop_connection.
Qed.

Lemma handler_emits_only_matched_witness :
  keyed_by_icao24 example_states_dict /\
  forall r,
    In r (_flight_connection_handler "EDDF" example_states_dict
            example_departures_handler) ->
    exists k fc,
      AirTrafficData.icao24 r = Some k /\
      PyDict.contains k example_states_dict = true /\
      In fc (list_or (example_departures_handler "EDDF")) /\
      FlightData.icao24 fc = Some k.
Proof.
  assert (H : keyed_by_icao24 example_states_dict).
  { intros k sv. simpl.
    destruct (String.eqb_spec k "abc123") as [->|]; [|discriminate].
    intros [= <-]. split; [reflexivity | discriminate]. }
  split; [exact H|]. intros r Hr.
  destruct (proj1 (handler_emits_only_matched "EDDF" example_states_dict
                     example_departures_handler) r Hr)
    as (k & sv & fc & Hsv & Hfc & Hk & _ & Hr_k).
  exists k, fc. split; [exact (Hr_k H)|]. split; [|split; assumption].
  unfold PyDict.contains. now rewrite Hsv.
Defined.

(** C2: in the calls of [_get_flight_data] that make up the handler's
    output, the state argument is never [None]: the test that guards the
    defensive branch fails on every call. *)
Theorem defensive_branch_unreachable (airport : string)
    (states_dict : PyDict.t StateVector.t)
    (handler : string -> option (list FlightData.t)) :
  let calls := join_calls states_dict (list_or (handler airport)) in
  _flight_connection_handler airport states_dict handler =
    map (fun call => _get_flight_data (fst call) (snd call)) calls
  /\ Forall (fun call => takes_defensive_branch (fst call) = false) calls
  /\ Forall (fun call => exists k sv,
               PyDict.get k states_dict = Some sv /\ fst call = Some sv) calls.
Proof.
  intros calls. split; [reflexivity|]. subst calls.
  split; apply Forall_forall; intros [st fc] Hin;
    apply join_calls_In in Hin as (k & sv & -> & Hsv & _); simpl.
  - reflexivity.
  - eauto.
Qed.

(** C6: the identifier-to-connection mapping holds, under an identifier,
    exactly the last connection of the list that has it, and a connection
    without identifier leaves the mapping as it would be without it. *)
Theorem connections_dict_last_write_wins
    (flight_connections : list FlightData.t) :
  (forall k fc,
     PyDict.get k (flight_connections_dict flight_connections) = Some fc <->
     k <> ""%string /\
     exists l1 l2, flight_connections = l1 ++ fc :: l2 /\
       FlightData.icao24 fc = Some k /\
       forall fc', In fc' l2 -> FlightData.icao24 fc' <> Some k)
  /\ (forall l1 fc l2,
        flight_connections = l1 ++ fc :: l2 ->
        FlightData.icao24 fc = None ->
        flight_connections_dict flight_connections =
        flight_connections_dict (l1 ++ l2)).
Proof.
  split.
  - intros k fc. unfold flight_connections_dict.
    rewrite comprehension_get_last. split.
    + intros (l1 & x & l2 & -> & Ex & Hlater).
      apply connection_entry_Some in Ex as (Ek & Hne & <-).
      split; [assumption|]. exists l1, l2. repeat split; trivial.
      intros y Hy Ey. apply (Hlater y y Hy).
      apply connection_entry_Some. auto.
    + intros (Hne & l1 & l2 & -> & Ek & Hlater).
      exists l1, fc, l2. repeat split.
      * apply connection_entry_Some. auto.
      * intros y v' Hy Ey. apply connection_entry_Some in Ey as (Ey & _).
        now apply (Hlater y).
  - intros l1 fc l2 -> Hnone. apply comprehension_skip.
    apply connection_entry_None. now rewrite Hnone.
Qed.

Lemma connections_dict_last_write_wins_witness :
  PyDict.get "abc123" (flight_connections_dict example_two_legs)
  = Some (FlightData.mk (Some "abc123"%string) (Some "LFPG"%string) None).
Proof.
  apply (proj1 (connections_dict_last_write_wins example_two_legs)).
  split; [discriminate|].
  exists [FlightData.mk (Some "abc123"%string) (Some "EDDF"%string)
            (Some "LFPG"%string)], [].
  repeat split. intros fc' [].
Defined.

End JoinClaims.

(* ===================================================================== *)
(** * The reduced record *)
(* ===================================================================== *)

Section RecordClaims.
Import PyDictFacts.

Lemma filter_swap {A : Type} (f g : A -> bool) (l : list A) :
  filter f (filter g l) = filter g (filter f l).
Proof.
  induction l as [|a l IH]; simpl; [reflexivity|].
  destruct (f a) eqn:Ef, (g a) eqn:Eg; simpl; rewrite ?Ef, ?Eg, IH; reflexivity.
Qed.

(** Under the documented keying, the records of the output that carry [k]
    are those made from the entry of [k] in the connection mapping. *)
Lemma records_for_join sd fcs k sv fcl :
  keyed_by_icao24 sd ->
  PyDict.get k sd = Some sv ->
  PyDict.get k (flight_connections_dict fcs) = Some fcl ->
  records_for k (join sd fcs) = [_get_flight_data (Some sv) fcl].
Proof.
  intros Hkeyed Hsv Hfcl. unfold records_for, join.
  rewrite join_calls_filter, map_map, filter_map_comm.
  rewrite (filter_ext_in _ (fun it : string * FlightData.t => String.eqb k (fst it))).
  - rewrite filter_swap,
      (filter_key_single k fcl (flight_connections_dict fcs)).
    + cbn [filter fst snd map]. unfold PyDict.contains. rewrite Hsv.
      cbn [map fst snd]. now rewrite Hsv.
    + apply comprehension_NoDup.
    + now apply get_Some_In.
  - intros [k' fc'] Hin. apply filter_In in Hin as [_ Hc]. simpl in *.
    apply contains_true in Hc as [sv' Hsv']. rewrite Hsv'. simpl.
    now rewrite (proj1 (Hkeyed k' sv' Hsv')).
Qed.

(** C7: whatever the state, the 'from' field of the reduced record is the
    estimated departure airport code of the connection when it has one, and
    the literal "Unknown airport" otherwise; the 'to' field is the same for
    the estimated arrival airport. *)
Theorem get_flight_data_airports (state : option StateVector.t)
    (fc : FlightData.t) :
  let r := _get_flight_data state fc in
  AirTrafficData.from r =
    match FlightData.estDepartureAirport fc with
    | Some code => if String.eqb code "" then "Unknown airport"%string else code
    | None => "Unknown airport"%string
    end
  /\ AirTrafficData.to r =
    match FlightData.estArrivalAirport fc with
    | Some code => if String.eqb code "" then "Unknown airport"%string else code
    | None => "Unknown airport"%string
    end.
Proof.
  destruct state; simpl; rewrite !str_or_spec; split; reflexivity.
Qed.

(** C8, as amended: under the documented keying of the state mapping, for
    every connection whose identifier is a key of it the output holds
    exactly one record with that identifier; the record carries the
    latitude, longitude and last contact of the state under that key and the
    airports of the last connection of the list that has that identifier. *)
Theorem one_record_for_last_connection
    (states_dict : PyDict.t StateVector.t)
    (flight_connections : list FlightData.t)
    (fc : FlightData.t) (k : string) (sv : StateVector.t) :
  keyed_by_icao24 states_dict ->
  In fc flight_connections ->
  FlightData.icao24 fc = Some k ->
  PyDict.get k states_dict = Some sv ->
  exists r l1 fc_last l2,
    records_for k (join states_dict flight_connections) = [r] /\
    flight_connections = l1 ++ fc_last :: l2 /\
    FlightData.icao24 fc_last = Some k /\
    (forall fc', In fc' l2 -> FlightData.icao24 fc' <> Some k) /\
    carries r sv fc_last.
Proof.
  intros Hkeyed Hin Hk Hsv.
  destruct (Hkeyed k sv Hsv) as [_ Hne].
  destruct (PyDict.get k (flight_connections_dict flight_connections))
    as [fcl|] eqn:Hget.
  - pose proof Hget as Hlast. unfold flight_connections_dict in Hlast.
    apply comprehension_get_last in Hlast as (l1 & x & l2 & -> & Ex & Hlater).
    apply connection_entry_Some in Ex as (Ex & _ & <-).
    exists (_get_flight_data (Some sv) fcl), l1, fcl, l2.
    split; [now apply records_for_join|].
    split; [reflexivity|]. split; [assumption|]. split.
    + intros y Hy Ey. apply (Hlater y y Hy).
      apply connection_entry_Some. auto.
    + repeat split.
  - exfalso. unfold flight_connections_dict in Hget.
    rewrite comprehension_get_None in Hget.
    apply (Hget fc fc Hin). apply connection_entry_Some. auto.
Qed.

Lemma one_record_for_last_connection_witness :
  exists r l1 fc_last l2,
    records_for "abc123" (join example_states_dict example_two_legs) = [r] /\
    example_two_legs = l1 ++ fc_last :: l2 /\
    FlightData.icao24 fc_last = Some "abc123"%string /\
    (forall fc', In fc' l2 -> FlightData.icao24 fc' <> Some "abc123"%string) /\
    carries r example_state fc_last.
Proof.
  apply (one_record_for_last_connection example_states_dict example_two_legs
           (FlightData.mk (Some "abc123"%string) (Some "EDDF"%string)
              (Some "LFPG"%string))).
  - intros k sv. simpl.
    destruct (String.eqb_spec k "abc123") as [->|]; [|discriminate].
    intros [= <-]. split; [reflexivity | discriminate].
  - simpl. now left.
  - reflexivity.
  - reflexivity.
Defined.

(** C8, as stated, fails when an aircraft has two connections in the list:
    the single record carries the airports of the second one, not those of
    the first. *)
Lemma one_record_per_connection_fails :
  ~ one_record_per_connection example_states_dict example_two_legs.
Proof.
  intros H.
  destruct (H (FlightData.mk (Some "abc123"%string) (Some "EDDF"%string)
                 (Some "LFPG"%string))
              "abc123"%string example_state)
    as (r & Hr & Hcarries).
  - simpl. now left.
  - reflexivity.
  - reflexivity.
  - injection Hr as <-.
    destruct Hcarries as (_ & _ & _ & Hfrom & _).
    discriminate Hfrom.
Qed.

(** C9: the example of the specification.  The snapshot maps "abc123" to a
    state at latitude 10 and longitude 20 last heard at 1000, the only
    departure of "EDDF" is that aircraft with no arrival airport, and the
    handler returns the one record given. *)
Theorem example_join :
  _flight_connection_handler "EDDF" example_states_dict
    example_departures_handler
  = [AirTrafficData.mk (Some "abc123"%string) (Some (10 # 1)) (Some (20 # 1))
       "EDDF" "Unknown airport" (Some 1000)].
Proof. reflexivity. Qed.

(** C10: an empty airport code gives "Unknown airport" like an absent one,
    and a state or a connection whose identifier is the empty string is left
    out of its mapping like one without identifier. *)
Theorem falsy_values_count_as_absent :
  (forall state fc,
     FlightData.estDepartureAirport fc = Some ""%string ->
     AirTrafficData.from (_get_flight_data state fc) = "Unknown airport"%string)
  /\ (forall state fc,
        FlightData.estArrivalAirport fc = Some ""%string ->
        AirTrafficData.to (_get_flight_data state fc) = "Unknown airport"%string)
  /\ (forall l1 sv l2,
        StateVector.icao24 sv = Some ""%string \/ StateVector.icao24 sv = None ->
        states_to_dict (l1 ++ sv :: l2) = states_to_dict (l1 ++ l2))
  /\ (forall l1 fc l2,
        FlightData.icao24 fc = Some ""%string \/ FlightData.icao24 fc = None ->
        flight_connections_dict (l1 ++ fc :: l2) =
        flight_connections_dict (l1 ++ l2)).
Proof.
  repeat split.
  - intros state fc E. destruct state; simpl; now rewrite E.
  - intros state fc E. destruct state; simpl; now rewrite E.
  - intros l1 sv l2 E. apply comprehension_skip, state_entry_None.
    destruct E as [-> | ->]; reflexivity.
  - intros l1 fc l2 E. apply comprehension_skip, connection_entry_None.
    destruct E as [-> | ->]; reflexivity.
Qed.

Lemma falsy_values_count_as_absent_witness :
  AirTrafficData.from
    (_get_flight_data (Some example_state)
       (FlightData.mk (Some "abc123"%string) (Some ""%string) None))
  = "Unknown airport"%string
  /\ states_to_dict
       ([example_state] ++ StateVector.mk (Some ""%string) None None None :: [])
     = states_to_dict ([example_state] ++ []).
Proof.
  split.
  - apply (proj1 falsy_values_count_as_absent). reflexivity.
  - apply (proj1 (proj2 (proj2 falsy_values_count_as_absent))).
    left. reflexivity.
Defined.

End RecordClaims.

(* ===================================================================== *)
(** * Facts about floats *)
(* ===================================================================== *)

Module Float64Facts.

Import Float64.

Section Facts.


















End Facts.

(** The model agrees with the primitive binary64 floats of the proof
    assistant on timestamps around the epoch, around [2 ^ 33] and [2 ^ 34]
    seconds, at the end of the year 9999 and at the largest integers that a
    float holds exactly, for several numbers of microseconds. *)
Example timestamps_agree_with_binary64 :
  forallb
    (fun '(s, us) =>
       PrimFloat.eqb
         (to_prim (add (of_int s) (div_int us 1000000)))
         (PrimFloat.add (PrimFloat.of_uint63 (Uint63.of_Z s))
            (PrimFloat.div (PrimFloat.of_uint63 (Uint63.of_Z us))
               (PrimFloat.of_uint63 (Uint63.of_Z 1000000)))))
    [(0, 0); (0, 1); (0, 999999); (1, 999999); (1793750399, 999999);
     (1793750399, 123456); (1793059200, 0); (8589934591, 999999);
     (8589934592, 999999); (8589934592, 500000); (17179869183, 999999);
     (17179869184, 999999); (17179948799, 999999); (17179948799, 1);
     (253402300799, 999999); (253402300799, 500000);
     (4503599627370496, 999999); (4503599627370496, 500000);
     (4503599627370497, 500000); (9007199254740991, 999999);
     (9007199254740991, 1)]
  = true.
Proof. vm_compute. reflexivity. Qed.

End Float64Facts.

(* ===================================================================== *)
(** * The time window *)
(* ===================================================================== *)

Section WindowClaims.

Variable mktime : Z -> Z -> Z -> Z -> bool -> outcome Z.





End WindowClaims.



Example days_span_example :
  _days_span_in_timestamps mktime_utc 7 example_today
  = Returns (1793059200, 1793750399).
Proof. vm_compute. reflexivity. Qed.

(* ===================================================================== *)
(** * Retrieval: what the wrappers catch *)
(* ===================================================================== *)

Section RetrievalClaims.

(** What [_get_states] returns, by the behaviour of the provider call. *)
Lemma get_states_cases (client : py (option OpenSkyStates))
    (log0 : list log_record) :
  _get_states client log0 =
  match client log0 with
  | (Returns None, log1) => (Returns [], log1)
  | (Returns (Some o), log1) => (Returns (list_or (states o)), log1)
  | (Raises e, log1) => (Returns [], log1 ++ [StatesError e])
  end.
Proof.
  unfold _get_states, try_except, bind, ret, logger_error.
  destruct (client log0) as [[[o|]|e] log1]; reflexivity.
Qed.

Lemma get_states_returns (client : py (option OpenSkyStates))
    (log0 : list log_record) :
  exists sts log1, _get_states client log0 = (Returns sts, log1).
Proof.
  rewrite get_states_cases.
  destruct (client log0) as [[[o|]|e] log1]; eauto.
Qed.

(** What [_flight_connections_today] does, by the outcome of the window and
    the behaviour of the provider call. *)
Lemma flight_connections_today_cases
    (mktime : Z -> Z -> Z -> Z -> bool -> outcome Z)
    (n : Z) (today : Datetime.datetime) (icao : string)
    (callback : string -> Z -> Z -> py (option (list FlightData.t)))
    (log0 : list log_record) :
  _flight_connections_today mktime n today icao callback log0 =
  match _days_span_in_timestamps mktime n today with
  | Raises x => (Raises x, log0)
  | Returns (begin, end_) =>
      match callback icao begin end_ log0 with
      | (Returns r, log1) => (Returns (list_or r), log1)
      | (Raises e, log1) =>
          (Returns [], log1 ++ [ConnectionsError icao begin end_ e])
      end
  end.
Proof.
  unfold _flight_connections_today, bind, lift.
  destruct (_days_span_in_timestamps mktime n today) as [[b e]|x];
    [|reflexivity].
  unfold try_except, bind, ret, logger_error.
  destruct (callback icao b e log0) as [[r|x] log1]; reflexivity.
Qed.

(** [_flight_connections_today] raises exactly what its window raises. *)
Lemma flight_connections_today_raises
    (mktime : Z -> Z -> Z -> Z -> bool -> outcome Z)
    (n : Z) (today : Datetime.datetime) (icao : string)
    (callback : string -> Z -> Z -> py (option (list FlightData.t)))
    (log0 : list log_record) (x : exn) :
  fst (_flight_connections_today mktime n today icao callback log0) =
    Raises x
  <-> _days_span_in_timestamps mktime n today = Raises x.
Proof.
  rewrite flight_connections_today_cases.
  destruct (_days_span_in_timestamps mktime n today) as [[b e]|y].
  - destruct (callback icao b e log0) as [[r|y] log1]; simpl;
      split; discriminate.
  - simpl. split; intros [= ->]; reflexivity.
Qed.

(** C4: whatever the provider call does, [_get_states] returns a list and
    raises nothing, and so does [_flight_connections_today] whenever its
    time window is computed; the list is empty when the call raised or gave
    nothing, as it is for an empty answer, and it is the provider's list
    otherwise.  The window is read before the [try] statement: what it
    raises, [_flight_connections_today] raises, with nothing logged and
    whatever the provider would do. *)
Theorem retrieval_catches_provider_failures :
  (forall (client : py (option OpenSkyStates)) (log0 : list log_record),
     exists sts log1,
       _get_states client log0 = (Returns sts, log1) /\
       (states_failure (fst (client log0)) -> sts = []) /\
       (forall l, fst (client log0) = Returns (Some {| states := Some l |}) ->
          sts = l))
  /\ (forall (mktime : Z -> Z -> Z -> Z -> bool -> outcome Z) (n : Z)
        (today : Datetime.datetime) (icao : string)
        (callback : string -> Z -> Z -> py (option (list FlightData.t)))
        (log0 : list log_record),
        (forall begin end_,
           _days_span_in_timestamps mktime n today = Returns (begin, end_) ->
           exists fcs log1,
             _flight_connections_today mktime n today icao callback log0 =
               (Returns fcs, log1) /\
             (connections_failure (fst (callback icao begin end_ log0)) ->
              fcs = []) /\
             (forall l,
                fst (callback icao begin end_ log0) = Returns (Some l) ->
                fcs = l))
        /\ (forall x,
              _days_span_in_timestamps mktime n today = Raises x ->
              _flight_connections_today mktime n today icao callback log0 =
                (Raises x, log0))).
Proof.
  split.
  - intros client log0. rewrite get_states_cases.
    destruct (client log0) as [[[o|]|e] log1]; simpl.
    + exists (list_or (states o)), log1. split; [reflexivity|]. split.
      * intros [H|H]; rewrite H; reflexivity.
      * intros l [= ->]. simpl. now destruct l.
    + exists [], log1. repeat split. discriminate.
    + exists [], (log1 ++ [StatesError e]). repeat split. discriminate.
  - intros mktime n today icao callback log0.
    rewrite flight_connections_today_cases. split.
    + intros b e ->.
      destruct (callback icao b e log0) as [[[l|]|x] log1]; simpl.
      * exists (list_or (Some l)), log1. split; [reflexivity|]. split.
        -- intros ->. reflexivity.
        -- intros l' [= ->]. simpl. now destruct l'.
      * exists [], log1. repeat split. discriminate.
      * exists [], (log1 ++ [ConnectionsError icao b e x]).
        repeat split. discriminate.
    + intros x ->. reflexivity.
Qed.

Lemma retrieval_catches_provider_failures_witness :
  (exists sts log1,
     _get_states client_unreachable [] = (Returns sts, log1) /\ sts = [])
  /\ (exists sts log1,
        _get_states client_answers [] = (Returns sts, log1) /\
        sts = [example_state])
  /\ (exists fcs log1,
        _flight_connections_today mktime_utc 7 example_today "EDDF"
          callback_unreachable [] = (Returns fcs, log1) /\ fcs = [])
  /\ (exists x,
        _flight_connections_today mktime_utc 1000000 example_today "EDDF"
          callback_unreachable [] = (Raises x, [])).
Proof.
  repeat split.
  - destruct (proj1 retrieval_catches_provider_failures client_unreachable [])
      as (sts & log1 & E & Hfail & _).
    exists sts, log1. split; [exact E|]. apply Hfail. exact I.
  - destruct (proj1 retrieval_catches_provider_failures client_answers [])
      as (sts & log1 & E & _ & Hok).
    exists sts, log1. split; [exact E|]. apply Hok. reflexivity.
  - destruct (proj1 (proj2 retrieval_catches_provider_failures mktime_utc 7
                       example_today "EDDF"%string callback_unreachable [])
                1793059200 1793750399)
      as (fcs & log1 & E & Hfail & _).
    + vm_compute. reflexivity.
    + exists fcs, log1. split; [exact E|]. apply Hfail. exact I.
  - eexists.
    apply (proj2 (proj2 retrieval_catches_provider_failures mktime_utc
                    1000000 example_today "EDDF"%string
                    callback_unreachable [])).
    vm_compute. reflexivity.
Defined.

(** A span of a million days: the window raises before the provider is
    asked, and [_flight_connections_today] with it. *)
Lemma connections_never_propagate_fails : ~ connections_never_propagate.
Proof.
  intros H.
  destruct (H mktime_utc 1000000 example_today "EDDF"%string
              callback_answers []) as (fcs & log1 & E).
  vm_compute in E. discriminate E.
Qed.

End RetrievalClaims.

(* ===================================================================== *)
(** * The cache of the state snapshot *)
(* ===================================================================== *)

Lemma Qlt_bool_iff (x y : Q) : Qlt_bool x y = true <-> (x < y)%Q.
Proof.
  unfold Qlt_bool. rewrite negb_true_iff. split.
  - intros H. apply Qnot_le_lt. intros Hle.
    apply Qle_bool_iff in Hle. congruence.
  - intros H. destruct (Qle_bool y x) eqn:E; [|reflexivity].
    apply Qle_bool_iff in E. exfalso. now apply (Qlt_not_le x y).
Qed.

Module TTLCacheFacts.
Import TTLCache.

Section Facts.

Context {K V : Type} (K_eq_dec : forall x y : K, {x = y} + {x <> y}).

Implicit Types (k : K) (v : V) (l : TTLCache.link K V)
  (ls : list (TTLCache.link K V)) (c : TTLCache.t K V).

Lemma has_key_true k l : has_key K_eq_dec k l = true <-> key l = k.
Proof. unfold has_key. destruct (K_eq_dec k (key l)); split; congruence. Qed.

Lemma has_key_false k l : has_key K_eq_dec k l = false <-> key l <> k.
Proof. unfold has_key. destruct (K_eq_dec k (key l)); split; congruence. Qed.

Lemma find_Some k ls l : find K_eq_dec k ls = Some l -> In l ls /\ key l = k.
Proof.
  unfold find. intros H. apply find_some in H as [Hin Hk].
  now apply has_key_true in Hk.
Qed.

Lemma find_None k ls : find K_eq_dec k ls = None <-> ~ In k (map key ls).
Proof.
  unfold find. split.
  - intros H Hin. apply in_map_iff in Hin as (l & Hk & Hin).
    apply (find_none _ _ H) in Hin. apply has_key_false in Hin. congruence.
  - intros H. destruct (List.find (has_key K_eq_dec k) ls) as [l|] eqn:E;
      [|reflexivity].
    apply find_some in E as [Hin Hk]. apply has_key_true in Hk.
    exfalso. apply H. rewrite <- Hk. now apply in_map.
Qed.

Lemma remove_app k ls1 ls2 :
  remove K_eq_dec k (ls1 ++ ls2) = remove K_eq_dec k ls1 ++ remove K_eq_dec k ls2.
Proof. apply filter_app. Qed.

Lemma remove_absent k ls : ~ In k (map key ls) -> remove K_eq_dec k ls = ls.
Proof.
  induction ls as [|l ls IH]; simpl; intros H; [reflexivity|].
  destruct (has_key K_eq_dec k l) eqn:E.
  - apply has_key_true in E. tauto.
  - simpl. f_equal. apply IH. tauto.
Qed.

Lemma keys_filter_incl (f : TTLCache.link K V -> bool) ls :
  incl (map key (filter f ls)) (map key ls).
Proof.
  intros k Hin. apply in_map_iff in Hin as (l & <- & Hin).
  apply filter_In in Hin as [Hin _]. now apply in_map.
Qed.

Lemma keys_filter_NoDup (f : TTLCache.link K V -> bool) ls :
  NoDup (map key ls) -> NoDup (map key (filter f ls)).
Proof.
  induction ls as [|l ls IH]; simpl; intros H; [constructor|].
  inversion H as [|? ? Hnotin Hnd]; subst.
  destruct (f l); simpl; [|auto].
  constructor; [|auto]. intros Hin. apply Hnotin.
  now apply (keys_filter_incl f).
Qed.

Lemma keys_remove_absent k ls : ~ In k (map key (remove K_eq_dec k ls)).
Proof.
  intros Hin. apply in_map_iff in Hin as (l & Hk & Hin).
  apply filter_In in Hin as [_ Hf]. apply negb_true_iff in Hf.
  apply has_key_false in Hf. congruence.
Qed.

Lemma keys_snoc_NoDup ls l :
  NoDup (map key ls) -> ~ In (key l) (map key ls) ->
  NoDup (map key (ls ++ [l])).
Proof.
  intros Hnd Hnotin. rewrite map_app. simpl.
  apply NoDup_Add with (a := key l) (l := map key ls ++ []).
  - apply Add_app.
  - rewrite app_nil_r. auto.
Qed.

Lemma remove_length_lt k ls l :
  find K_eq_dec k ls = Some l ->
  (List.length (remove K_eq_dec k ls) < List.length ls)%nat.
Proof.
  induction ls as [|l0 ls IH]; simpl; [discriminate|].
  unfold find in *. simpl.
  destruct (has_key K_eq_dec k l0); simpl.
  - intros _. pose proof (filter_length_le (fun l => negb (has_key K_eq_dec k l)) ls).
    unfold remove. lia.
  - intros H. apply IH in H. unfold remove in *. lia.
Qed.

Lemma keys_skipn_NoDup (n : nat) ls :
  NoDup (map key ls) -> NoDup (map key (skipn n ls)).
Proof.
  revert ls. induction n as [|n IH]; intros ls H; [assumption|].
  destruct ls as [|l ls]; [assumption|]. simpl.
  inversion H; subst. auto.
Qed.

Lemma keys_skipn_incl (n : nat) ls :
  incl (map key (skipn n ls)) (map key ls).
Proof.
  revert ls. induction n as [|n IH]; intros ls; [apply incl_refl|].
  destruct ls as [|l ls]; [apply incl_refl|]. simpl.
  apply incl_tl, IH.
Qed.

Lemma getitem_spec (time : Q) k c :
  getitem K_eq_dec time k c =
  match find K_eq_dec k (links c) with
  | None => (None, c)
  | Some l =>
      (if Qlt_bool time (expires l) then Some (value l) else None,
       with_links c (remove K_eq_dec k (links c) ++ [l]))
  end.
Proof.
  unfold getitem, move_to_end.
  destruct (find K_eq_dec k (links c)) as [l|]; [|reflexivity].
  now destruct (Qlt_bool time (expires l)).
Qed.

Lemma getitem_wf (time : Q) k c :
  wf c ->
  wf (snd (getitem K_eq_dec time k c)) /\
  maxsize (snd (getitem K_eq_dec time k c)) = maxsize c /\
  ttl (snd (getitem K_eq_dec time k c)) = ttl c.
Proof.
  intros [Hnd Hlen]. rewrite getitem_spec.
  destruct (find K_eq_dec k (links c)) as [l|] eqn:E; simpl;
    [|repeat split; assumption].
  repeat split; simpl.
  - apply keys_snoc_NoDup; [now apply keys_filter_NoDup|].
    apply find_Some in E as [_ ->]. apply keys_remove_absent.
  - rewrite length_app. simpl. apply remove_length_lt in E. lia.
Qed.

Lemma setitem_wf (time : Q) k v c :
  wf c ->
  wf (setitem K_eq_dec time k v c) /\
  maxsize (setitem K_eq_dec time k v c) = maxsize c /\
  ttl (setitem K_eq_dec time k v c) = ttl c.
Proof.
  intros [Hnd Hlen]. unfold setitem.
  set (live := expire time (links c)).
  assert (Hnd' : NoDup (map key live)) by now apply keys_filter_NoDup.
  assert (Hlen' : (List.length live <= maxsize c)%nat).
  { pose proof (filter_length_le (fun l => Qlt_bool time (expires l)) (links c)).
    unfold live, expire. lia. }
  destruct (Nat.ltb_spec (maxsize c) 1) as [Hm|Hm]; simpl;
    [repeat split; assumption|].
  repeat split; simpl.
  - apply keys_snoc_NoDup; [|apply keys_remove_absent].
    apply keys_filter_NoDup.
    destruct (find K_eq_dec k live); [assumption | now apply keys_skipn_NoDup].
  - rewrite length_app. simpl.
    destruct (find K_eq_dec k live) as [l|] eqn:E.
    + apply remove_length_lt in E. lia.
    + pose proof (filter_length_le (fun l => negb (has_key K_eq_dec k l))
                    (skipn (List.length live + 1 - maxsize c) live)) as Hr.
      rewrite length_skipn in Hr. unfold remove. lia.
Qed.

Lemma find_app_absent k ls1 ls2 :
  ~ In k (map key ls1) ->
  find K_eq_dec k (ls1 ++ ls2) = find K_eq_dec k ls2.
Proof.
  induction ls1 as [|l ls1 IH]; simpl; intros H; [reflexivity|].
  unfold find in *. simpl.
  destruct (has_key K_eq_dec k l) eqn:E.
  - apply has_key_true in E. tauto.
  - apply IH. tauto.
Qed.

Lemma holds_find k0 v0 (e0 : Q) (touched : list K) ls :
  NoDup (map key ls) -> holds k0 v0 e0 touched ls ->
  find K_eq_dec k0 ls = Some (mk_link k0 v0 e0).
Proof.
  intros Hnd (pre & post & -> & _).
  rewrite map_app in Hnd. simpl in Hnd. apply NoDup_remove_2 in Hnd.
  rewrite find_app_absent
    by (intros Hin; apply Hnd; apply in_or_app; now left).
  unfold find. simpl. unfold has_key. simpl.
  now destruct (K_eq_dec k0 k0).
Qed.

Lemma holds_incl k0 v0 (e0 : Q) (touched touched' : list K) ls :
  holds k0 v0 e0 touched ls -> incl touched touched' ->
  holds k0 v0 e0 touched' ls.
Proof.
  intros (pre & post & -> & Hincl) H. exists pre, post.
  split; [reflexivity|]. eapply incl_tran; eassumption.
Qed.

Lemma remove_around k k0 v0 (e0 : Q) ls1 ls2 :
  k <> k0 ->
  remove K_eq_dec k (ls1 ++ mk_link k0 v0 e0 :: ls2) =
  remove K_eq_dec k ls1 ++ mk_link k0 v0 e0 :: remove K_eq_dec k ls2.
Proof.
  intros Hne. rewrite remove_app. f_equal. unfold remove. simpl.
  unfold has_key at 1. simpl. now destruct (K_eq_dec k k0).
Qed.

(** A lookup keeps the item, hits it when it is the one looked up and still
    live, and puts at most the key looked up behind it. *)
Lemma getitem_holds (time : Q) k c k0 v0 (e0 : Q) (touched : list K) :
  wf c -> holds k0 v0 e0 touched (links c) ->
  holds k0 v0 e0 (k :: touched) (links (snd (getitem K_eq_dec time k c))) /\
  (k = k0 -> (time < e0)%Q -> fst (getitem K_eq_dec time k c) = Some v0).
Proof.
  intros [Hnd _] Hholds. rewrite getitem_spec.
  pose proof (holds_find _ _ _ _ _ Hnd Hholds) as Hours.
  destruct (K_eq_dec k k0) as [->|Hne].
  - rewrite Hours. simpl. split.
    + exists (remove K_eq_dec k0 (links c)), []. split; [reflexivity|].
      intros x [].
    + intros _ Ht. apply Qlt_bool_iff in Ht. now rewrite Ht.
  - split; [|congruence].
    destruct (find K_eq_dec k (links c)) as [l|] eqn:E; simpl.
    + destruct Hholds as (pre & post & Hls & Hincl).
      apply find_Some in E as [_ Hk]. rewrite Hls, remove_around by assumption.
      exists (remove K_eq_dec k pre), (remove K_eq_dec k post ++ [l]).
      split; [now rewrite <- app_assoc|].
      rewrite map_app. simpl. intros x Hx.
      apply in_app_or in Hx as [Hx|[<-|[]]]; [|now left].
      right. apply Hincl. unfold remove in Hx. now apply keys_filter_incl in Hx.
    + eapply holds_incl; [eassumption | apply incl_tl, incl_refl].
Qed.

(** Storing under another key keeps a live item, as long as fewer keys were
    touched since its use than the cache has room for besides it. *)
Lemma setitem_holds (time : Q) k v c k0 v0 (e0 : Q) (touched : list K) :
  wf c -> holds k0 v0 e0 (k :: touched) (links c) ->
  k <> k0 -> (time < e0)%Q ->
  (List.length touched + 2 <= maxsize c)%nat ->
  holds k0 v0 e0 (k :: touched) (links (setitem K_eq_dec time k v c)).
Proof.
  intros [Hnd Hlen] (pre & post & Hls & Hincl) Hne Ht Hroom.
  apply Qlt_bool_iff in Ht. unfold setitem.
  set (pre' := expire time pre). set (post' := expire time post).
  assert (Hlive : expire time (links c) = pre' ++ mk_link k0 v0 e0 :: post').
  { rewrite Hls. unfold expire. rewrite filter_app. simpl. now rewrite Ht. }
  rewrite Hlive.
  assert (Hincl' : incl (map key post') (k :: touched)).
  { eapply incl_tran; [apply keys_filter_incl | exact Hincl]. }
  destruct (Nat.ltb_spec (maxsize c) 1) as [Hm|Hm]; simpl.
  { exists pre', post'. split; [reflexivity | assumption]. }
  assert (Hnd' : NoDup (map key (pre' ++ mk_link k0 v0 e0 :: post'))).
  { rewrite <- Hlive. now apply keys_filter_NoDup. }
  assert (Hlen' : (List.length (pre' ++ mk_link k0 v0 e0 :: post')
                   <= maxsize c)%nat).
  { rewrite <- Hlive.
    pose proof (filter_length_le (fun l => Qlt_bool time (expires l)) (links c)).
    unfold expire. lia. }
  destruct (find K_eq_dec k (pre' ++ mk_link k0 v0 e0 :: post')) as [l|] eqn:E.
  - rewrite remove_around by assumption.
    exists (remove K_eq_dec k pre'),
      (remove K_eq_dec k post' ++ [mk_link k v (time + ttl c)%Q]).
    split; [now rewrite <- app_assoc|].
    rewrite map_app. simpl. intros x Hx.
    apply in_app_or in Hx as [Hx|[<-|[]]]; [|now left].
    apply Hincl'. unfold remove in Hx. now apply keys_filter_incl in Hx.
  - apply find_None in E.
    assert (Hpost : (List.length post' <= List.length touched)%nat).
    { rewrite <- (length_map key post'). apply NoDup_incl_length.
      - rewrite map_app in Hnd'. simpl in Hnd'.
        apply NoDup_app_remove_l in Hnd'. now inversion Hnd'.
      - intros x Hx. destruct (Hincl' x Hx) as [<-|Hin]; [|assumption].
        exfalso. apply E. rewrite map_app. simpl.
        apply in_or_app. right. now right. }
    rewrite length_app in *. simpl in *.
    set (d := (List.length pre' + S (List.length post') + 1 - maxsize c)%nat).
    assert (Hd : (d <= List.length pre')%nat) by (unfold d; lia).
    rewrite skipn_app.
    replace (d - List.length pre')%nat with 0%nat by lia. simpl.
    rewrite remove_absent.
    + exists (skipn d pre'), (post' ++ [mk_link k v (time + ttl c)%Q]).
      split; [now rewrite <- app_assoc|].
      rewrite map_app. simpl. intros x Hx.
      apply in_app_or in Hx as [Hx|[<-|[]]]; [now apply Hincl' | now left].
    + intros Hin. apply E. rewrite !map_app in *. simpl in *.
      apply in_app_or in Hin as [Hin|Hin]; apply in_or_app; [left|now right].
      now apply keys_skipn_incl in Hin.
Qed.

(** Storing puts the new item last, with the time-to-live added to the
    clock reading. *)
Lemma setitem_creates (time : Q) k v c :
  (1 <= maxsize c)%nat ->
  holds k v (time + ttl c)%Q [] (links (setitem K_eq_dec time k v c)).
Proof.
  intros Hm. unfold setitem.
  destruct (Nat.ltb_spec (maxsize c) 1) as [Hm'|_]; [lia|]. simpl.
  eexists; exists []. split; [reflexivity|]. intros x [].
Qed.

End Facts.

End TTLCacheFacts.

Section StatesCache.
Import TTLCache TTLCacheFacts.

Lemma world_init_wf : world_wf world_init.
Proof.
  repeat split; simpl; [constructor | lia].
Qed.

(** One call, by the result of its lookup. *)
Lemma get_states_dict_cases (c : call) (w : world) :
  let k := call_key c in
  let lookup := getitem hashkey_eq_dec (t_lookup c) k (cache w) in
  (exists v, fst lookup = Some v /\
     get_states_dict c w =
       (Returns v, mk_world (snd lookup) (heap w) (log w)))
  \/ (fst lookup = None /\
      exists sts log1,
        _get_states (client_get_states c) (log w) = (Returns sts, log1) /\
        get_states_dict c w =
          (Returns (List.length (heap w)),
           mk_world
             (setitem hashkey_eq_dec (t_store c) k (List.length (heap w))
                (snd lookup))
             (heap w ++ [states_to_dict sts]) log1)).
Proof.
  intros k lookup. unfold get_states_dict, cached. fold k. fold lookup.
  destruct lookup as [[v|] cache'] eqn:E; simpl.
  - left. eauto.
  - right. split; [reflexivity|]. unfold get_states_dict_body. simpl.
    destruct (get_states_returns (client_get_states c) (log w))
      as (sts & log1 & ->). eauto.
Qed.

Lemma get_states_dict_wf (c : call) (w : world) :
  world_wf w -> world_wf (snd (get_states_dict c w)).
Proof.
  intros (Hwf & Hm & Httl).
  destruct (getitem_wf hashkey_eq_dec (t_lookup c) (call_key c) (cache w) Hwf)
    as (Hwf1 & Hm1 & Httl1).
  destruct (get_states_dict_cases c w)
    as [(v & _ & ->) | (_ & sts & log1 & _ & ->)];
    unfold world_wf; cbn [snd cache].
  - split; [exact Hwf1|]. split; congruence.
  - destruct (setitem_wf hashkey_eq_dec (t_store c) (call_key c)
                (List.length (heap w)) _ Hwf1) as (Hwf2 & Hm2 & Httl2).
    split; [exact Hwf2|].
    split; [exact (eq_trans Hm2 (eq_trans Hm1 Hm))
           | exact (eq_trans Httl2 (eq_trans Httl1 Httl))].
Qed.

Lemma run_calls_wf (cs : list call) (w : world) :
  world_wf w -> world_wf (snd (run_calls cs w)).
Proof.
  revert w. induction cs as [|c cs IH]; simpl; intros w Hw; [assumption|].
  pose proof (get_states_dict_wf c w Hw) as Hw1.
  destruct (get_states_dict c w) as [r w1]. simpl in Hw1.
  specialize (IH w1 Hw1). destruct (run_calls cs w1) as [rs w2]. exact IH.
Qed.

(** A call made before the item expires keeps it in the cache, returns its
    object when it is made with the key of the item, and touches one key. *)
Lemma call_holds (c : call) (w : world) (k0 : hashkey) (v0 : ref) (e0 : Q)
    (touched : list hashkey) :
  world_wf w ->
  holds k0 v0 e0 touched (links (cache w)) ->
  before e0 c ->
  (List.length touched + 2 <= 1024)%nat ->
  holds k0 v0 e0 (call_key c :: touched)
    (links (cache (snd (get_states_dict c w)))) /\
  (call_key c = k0 -> fst (get_states_dict c w) = Returns v0).
Proof.
  intros (Hwf & Hm & Httl) Hholds [Hlookup Hstore] Hroom.
  destruct (getitem_wf hashkey_eq_dec (t_lookup c) (call_key c) (cache w) Hwf)
    as (Hwf1 & Hm1 & Httl1).
  destruct (getitem_holds hashkey_eq_dec (t_lookup c) (call_key c) (cache w)
              k0 v0 e0 touched Hwf Hholds) as [Hholds1 Hhit].
  destruct (get_states_dict_cases c w)
    as [(v & Ev & ->) | (Ev & sts & log1 & _ & ->)]; cbn [fst snd cache].
  - split; [assumption|]. intros Hk. rewrite (Hhit Hk Hlookup) in Ev.
    congruence.
  - assert (Hne : call_key c <> k0).
    { intros Hk. rewrite (Hhit Hk Hlookup) in Ev. discriminate. }
    split; [|contradiction].
    apply setitem_holds; trivial. rewrite Hm1, Hm. exact Hroom.
Qed.


(** A call that misses stores the address of a new dictionary, live for 30
    seconds from the clock reading of the store. *)
Lemma fill_holds (c : call) (w : world) :
  world_wf w -> fills c w ->
  exists v,
    fst (get_states_dict c w) = Returns v /\
    holds (call_key c) v (t_store c + 30)%Q []
      (links (cache (snd (get_states_dict c w)))).
Proof.
  intros (Hwf & Hm & Httl) Hfills. unfold fills in Hfills.
  destruct (getitem_wf hashkey_eq_dec (t_lookup c) (call_key c) (cache w) Hwf)
    as (Hwf1 & Hm1 & Httl1).
  destruct (get_states_dict_cases c w)
    as [(v & Ev & _) | (_ & sts & log1 & _ & ->)]; [congruence|].
  cbn [fst snd cache]. eexists. split; [reflexivity|].
  rewrite <- Httl, <- Httl1. apply setitem_creates. rewrite Hm1, Hm. lia.
Qed.

Lemma same_arguments_key (c c' : call) :
  same_arguments c c' -> call_key c = call_key c'.
Proof. intros [Hs Ha]. unfold call_key. now rewrite Hs, Ha. Qed.




(** The three example calls: the second, made with a context, gets a new
    object; the third, made like the first 29 seconds later, gets the object
    of the first although the provider is unreachable by then. *)
Example example_calls_run :
  fst (run_calls [example_first_call; example_second_call; example_third_call]
         world_init)
  = [Returns 0%nat; Returns 1%nat; Returns 0%nat].
Proof. vm_compute. reflexivity. Qed.

End StatesCache.

(* ===================================================================== *)
(** * The snapshot and the join, end to end *)
(* ===================================================================== *)

Section PipelineFacts.
Import PyDictFacts.

Lemma flight_connections_dict_get_iff k fc fcs :
  PyDict.get k (flight_connections_dict fcs) = Some fc <->
  k <> ""%string /\ last_connection_with k fcs fc.
Proof.
  unfold flight_connections_dict, last_connection_with.
  rewrite comprehension_get_last. split.
  - intros (l1 & x & l2 & -> & Ex & Hlater).
    apply connection_entry_Some in Ex as (Ek & Hne & <-).
    split; [assumption|]. exists l1, l2. repeat split; trivial.
    intros y Hy Ey. apply (Hlater y y Hy). apply connection_entry_Some. auto.
  - intros (Hne & l1 & l2 & -> & Ek & Hlater).
    exists l1, fc, l2. repeat split.
    + apply connection_entry_Some. auto.
    + intros y v' Hy Ey. apply connection_entry_Some in Ey as (Ey & _).
      now apply (Hlater y).
Qed.

Lemma states_to_dict_get_iff k sv sts :
  PyDict.get k (states_to_dict sts) = Some sv <->
  k <> ""%string /\ last_state_with k sts sv.
Proof.
  unfold states_to_dict, last_state_with.
  rewrite comprehension_get_last. split.
  - intros (l1 & x & l2 & -> & Ex & Hlater).
    apply state_entry_Some in Ex as (Ek & Hne & <-).
    split; [assumption|]. exists l1, l2. repeat split; trivial.
    intros y Hy Ey. apply (Hlater y y Hy). apply state_entry_Some. auto.
  - intros (Hne & l1 & l2 & -> & Ek & Hlater).
    exists l1, sv, l2. repeat split.
    + apply state_entry_Some. auto.
    + intros y v' Hy Ey. apply state_entry_Some in Ey as (Ey & _).
      now apply (Hlater y).
Qed.

Lemma join_In_iff sd fcs r :
  In r (join sd fcs) <->
  exists k sv fc, PyDict.get k sd = Some sv /\
    PyDict.get k (flight_connections_dict fcs) = Some fc /\
    r = _get_flight_data (Some sv) fc.
Proof.
  unfold join. rewrite in_map_iff. split.
  - intros ([st fc] & <- & Hcall).
    apply join_calls_In in Hcall as (k & sv & -> & Hsv & Hfc).
    exists k, sv, fc. auto.
  - intros (k & sv & fc & Hsv & Hfc & ->).
    exists (Some sv, fc). split; [reflexivity|].
    now apply (join_calls_complete sd fcs k).
Qed.

(** The records of the join, with the keys they were made from. *)
Lemma join_as_map sd fcs :
  join sd fcs =
  map (fun it : string * FlightData.t =>
         _get_flight_data (PyDict.get (fst it) sd) (snd it))
    (filter (fun it => PyDict.contains (fst it) sd)
       (flight_connections_dict fcs)).
Proof. unfold join. now rewrite join_calls_filter, map_map. Qed.

Lemma join_identifiers sd fcs :
  keyed_by_icao24 sd ->
  map AirTrafficData.icao24 (join sd fcs) =
  map Some (PyDict.keys (filter (fun it => PyDict.contains (fst it) sd)
                           (flight_connections_dict fcs))).
Proof.
  intros Hkeyed. rewrite join_as_map. unfold PyDict.keys.
  rewrite !map_map. apply map_ext_in. intros [k fc] Hin. simpl.
  apply filter_In in Hin as [_ Hc]. simpl in Hc.
  apply contains_true in Hc as [sv Hsv]. rewrite Hsv. simpl.
  apply (Hkeyed k sv Hsv).
Qed.

Lemma keys_filter_dict_NoDup {V : Type} (f : string * V -> bool)
    (d : PyDict.t V) :
  NoDup (PyDict.keys d) -> NoDup (PyDict.keys (filter f d)).
Proof.
  induction d as [|[k v] d IH]; simpl; intros H; [constructor|].
  inversion H as [|? ? Hnotin Hnd]; subst.
  destruct (f (k, v)); simpl; [|auto].
  constructor; [|auto]. intros Hin. apply Hnotin.
  unfold PyDict.keys in *. apply in_map_iff in Hin as (it & <- & Hit).
  apply filter_In in Hit as [Hit _]. now apply in_map.
Qed.

Lemma comprehension_length {A V : Type} (entry : A -> option (string * V))
    (xs : list A) :
  (List.length (PyDict.comprehension entry xs) <= List.length xs)%nat.
Proof.
  induction xs as [|x xs IH] using rev_ind; [simpl; lia|].
  rewrite comprehension_snoc, length_app. simpl.
  unfold PyDict.comprehension_step. destruct (entry x) as [[k v]|]; [|lia].
  assert (Hset : forall d : PyDict.t V,
             (List.length (PyDict.set k v d) <= S (List.length d))%nat).
  { induction d as [|[k0 v0] d IHd]; simpl; [lia|].
    destruct (String.eqb k k0); simpl; lia. }
  specialize (Hset (PyDict.comprehension entry xs)). lia.
Qed.

End PipelineFacts.

Section PipelineClaims.
Import PyDictFacts.

Lemma filter_filter_and {A : Type} (f g : A -> bool) (l : list A) :
  filter f (filter g l) = filter (fun x => f x && g x) l.
Proof.
  induction l as [|a l IH]; simpl; [reflexivity|].
  destruct (g a); simpl; rewrite ?IH, ?andb_true_r, ?andb_false_r;
    [now destruct (f a) | reflexivity].
Qed.

Lemma filter_all {A : Type} (f : A -> bool) (l : list A) :
  (forall x, In x l -> f x = true) -> filter f l = l.
Proof.
  induction l as [|a l IH]; simpl; intros H; [reflexivity|].
  rewrite (H a) by now left. f_equal. apply IH. intros; apply H; now right.
Qed.

Lemma existsb_eqb_In (k : string) (l : list string) :
  existsb (String.eqb k) l = true <-> In k l.
Proof.
  rewrite existsb_exists. split.
  - intros (x & Hx & E). apply String.eqb_eq in E. now subst.
  - intros H. exists k. split; [assumption | apply String.eqb_refl].
Qed.

Lemma keys_set_eq {V : Type} (k : string) (v : V) (d : PyDict.t V) :
  PyDict.keys (PyDict.set k v d) =
  if existsb (String.eqb k) (PyDict.keys d) then PyDict.keys d
  else PyDict.keys d ++ [k].
Proof.
  induction d as [|[k0 v0] d IH]; simpl; [reflexivity|].
  destruct (String.eqb k k0) eqn:E; simpl; [reflexivity|].
  unfold PyDict.keys in *. rewrite IH.
  now destruct (existsb (String.eqb k) (map fst d)).
Qed.

Lemma keys_filter_fst {V : Type} (p : string -> bool) (d : PyDict.t V) :
  PyDict.keys (filter (fun it => p (fst it)) d) = filter p (PyDict.keys d).
Proof.
  induction d as [|[k v] d IH]; simpl; [reflexivity|].
  destruct (p k); simpl; now rewrite IH.
Qed.

(** The keys of a comprehension are the keys its elements produce, each at
    the place of its first occurrence. *)
Lemma fold_keys_first_occurrences {A V : Type}
    (entry : A -> option (string * V)) (xs : list A) (d : PyDict.t V) :
  PyDict.keys (fold_left (PyDict.comprehension_step entry) xs d) =
  PyDict.keys d ++
  filter (fun y => negb (existsb (String.eqb y) (PyDict.keys d)))
    (first_occurrences
       (flat_map (fun x => match entry x with
                           | Some (k, _) => [k]
                           | None => []
                           end) xs)).
Proof.
  revert d. induction xs as [|x xs IH]; intros d.
  - simpl. now rewrite app_nil_r.
  - cbn [fold_left flat_map]. rewrite IH. unfold PyDict.comprehension_step.
    destruct (entry x) as [[k v]|]; [|reflexivity].
    cbn [app first_occurrences filter]. rewrite keys_set_eq.
    destruct (existsb (String.eqb k) (PyDict.keys d)) eqn:Ek; simpl.
    + f_equal. rewrite filter_filter_and. apply filter_ext. intros y.
      destruct (String.eqb_spec k y) as [<-|]; simpl;
        [now rewrite Ek | now rewrite andb_true_r].
    + rewrite <- app_assoc. simpl. f_equal. f_equal.
      rewrite filter_filter_and. apply filter_ext. intros y.
      rewrite existsb_app. simpl. rewrite orb_false_r, negb_orb.
      f_equal. f_equal. apply String.eqb_sym.
Qed.

Lemma flight_connections_dict_keys fcs :
  PyDict.keys (flight_connections_dict fcs) =
  first_occurrences (identifiers fcs).
Proof.
  unfold flight_connections_dict, PyDict.comprehension.
  rewrite fold_keys_first_occurrences. simpl.
  apply filter_all. reflexivity.
Qed.

Lemma NoDup_map_Some {A : Type} (l : list A) :
  NoDup l -> NoDup (map Some l).
Proof.
  induction 1 as [|a l Hnotin Hnd IH]; simpl; constructor; [|assumption].
  intros Hin. apply in_map_iff in Hin as (b & [= ->] & Hb). contradiction.
Qed.

Lemma example_states_dict_keyed : keyed_by_icao24 example_states_dict.
Proof.
  intros k sv. simpl.
  destruct (String.eqb_spec k "abc123") as [->|]; [|discriminate].
  intros [= <-]. split; [reflexivity | discriminate].
Qed.

(** X1: from the retrieved states and connections to the records.  A record
    is in the output exactly when it is made from the last state and the
    last connection that carry one same non-empty identifier. *)
Theorem snapshot_join_records (sts : list StateVector.t)
    (fcs : list FlightData.t) (r : AirTrafficData.t) :
  In r (join (states_to_dict sts) fcs) <->
  exists k sv fc,
    k <> ""%string /\ last_state_with k sts sv /\
    last_connection_with k fcs fc /\
    r = _get_flight_data (Some sv) fc.
Proof.
  rewrite join_In_iff. split.
  - intros (k & sv & fc & Hsv & Hfc & ->).
    apply states_to_dict_get_iff in Hsv as [Hne Hsv].
    apply flight_connections_dict_get_iff in Hfc as [_ Hfc].
    exists k, sv, fc. auto.
  - intros (k & sv & fc & Hne & Hsv & Hfc & ->).
    exists k, sv, fc. repeat split.
    + apply states_to_dict_get_iff. auto.
    + apply flight_connections_dict_get_iff. auto.
Qed.

(** X2: the output has at most one record per connection and at most one
    per entry of the state mapping, and under the documented keying no two
    of its records carry the same identifier. *)
Theorem join_size_and_uniqueness (states_dict : PyDict.t StateVector.t)
    (fcs : list FlightData.t) :
  (List.length (join states_dict fcs) <= List.length fcs)%nat
  /\ (List.length (join states_dict fcs) <= List.length states_dict)%nat
  /\ (keyed_by_icao24 states_dict ->
      NoDup (map AirTrafficData.icao24 (join states_dict fcs))).
Proof.
  set (kept := filter (fun it : string * FlightData.t =>
                         PyDict.contains (fst it) states_dict)
                 (flight_connections_dict fcs)).
  assert (Hlen : List.length (join states_dict fcs) = List.length kept)
    by (rewrite join_as_map; apply length_map).
  assert (Hnd : NoDup (PyDict.keys kept))
    by (apply keys_filter_dict_NoDup, comprehension_NoDup).
  repeat split.
  - rewrite Hlen. unfold kept.
    pose proof (filter_length_le
                  (fun it : string * FlightData.t =>
                     PyDict.contains (fst it) states_dict)
                  (flight_connections_dict fcs)).
    pose proof (comprehension_length connection_entry fcs).
    unfold flight_connections_dict in *. lia.
  - rewrite Hlen, <- (length_map fst kept), <- (length_map fst states_dict).
    apply NoDup_incl_length; [exact Hnd|].
    intros k Hk. apply in_map_iff in Hk as ([k' fc] & <- & Hin).
    apply filter_In in Hin as [_ Hc]. simpl in *.
    apply contains_true in Hc as [sv Hsv]. apply get_Some_In in Hsv.
    change (In (fst (k', sv)) (map fst states_dict)). now apply in_map.
  - intros Hkeyed. rewrite join_identifiers by assumption.
    now apply NoDup_map_Some.
Qed.

Lemma join_size_and_uniqueness_witness :
  keyed_by_icao24 example_states_dict /\
  NoDup (map AirTrafficData.icao24 (join example_states_dict example_two_legs)).
Proof.
  split; [exact example_states_dict_keyed|].
  exact (proj2 (proj2 (join_size_and_uniqueness example_states_dict
                         example_two_legs)) example_states_dict_keyed).
Defined.

(** X3: the records come in the order in which the identifiers first occur
    in the connection list: under the documented keying, the identifiers of
    the output are the distinct non-empty identifiers of the connections, in
    order of first occurrence, without those that have no state. *)
Theorem join_order (states_dict : PyDict.t StateVector.t)
    (fcs : list FlightData.t) :
  keyed_by_icao24 states_dict ->
  map AirTrafficData.icao24 (join states_dict fcs) =
  map Some
    (filter (fun k => PyDict.contains k states_dict)
       (first_occurrences (identifiers fcs))).
Proof.
  intros Hkeyed. rewrite join_identifiers by assumption. f_equal.
  rewrite (keys_filter_fst (fun k => PyDict.contains k states_dict)).
  now rewrite flight_connections_dict_keys.
Qed.

Lemma join_order_witness :
  map AirTrafficData.icao24 (join example_states_dict example_two_legs) =
  map Some
    (filter (fun k => PyDict.contains k example_states_dict)
       (first_occurrences (identifiers example_two_legs))).
Proof.
  apply (join_order example_states_dict example_two_legs).
  exact example_states_dict_keyed.
Defined.

(** X4: the join reads the state mapping only at the identifiers of the
    connections: two mappings that agree there give the same output,
    whatever their order and their other entries. *)
Theorem join_reads_connection_identifiers
    (sd1 sd2 : PyDict.t StateVector.t) (fcs : list FlightData.t) :
  (forall fc k, In fc fcs -> FlightData.icao24 fc = Some k ->
     PyDict.get k sd1 = PyDict.get k sd2) ->
  join sd1 fcs = join sd2 fcs.
Proof.
  intros Hagree. rewrite !join_as_map.
  assert (Hkey : forall it, In it (flight_connections_dict fcs) ->
            PyDict.get (fst it) sd1 = PyDict.get (fst it) sd2).
  { intros [k fc] Hin. simpl.
    apply In_get in Hin; [|apply comprehension_NoDup].
    apply comprehension_get_In in Hin as (x & Hx & Ex).
    apply connection_entry_Some in Ex as (Ex & _). eauto. }
  rewrite (filter_ext_in _
             (fun it : string * FlightData.t => PyDict.contains (fst it) sd2)).
  - apply map_ext_in. intros it Hin. apply filter_In in Hin as [Hin _].
    now rewrite (Hkey it Hin).
  - intros it Hin. unfold PyDict.contains. now rewrite (Hkey it Hin).
Qed.

Lemma join_reads_connection_identifiers_witness :
  join example_states_dict example_two_legs =
  join (("def456"%string, StateVector.mk (Some "def456"%string) None None None)
          :: example_states_dict)
    example_two_legs.
Proof.
  apply join_reads_connection_identifiers.
  intros fc k [<-|[<-|[]]] [= <-]; reflexivity.
Defined.

End PipelineClaims.

(* ===================================================================== *)
(** * The window at a fixed offset from UTC *)
(* ===================================================================== *)

Section WindowExtras.



End WindowExtras.

(* ===================================================================== *)
(** * Construction: which credentials the client gets *)
(* ===================================================================== *)

Section InitExtras.

Lemma opt_or_truthy (x y : option string) : truthy x = true -> opt_or x y = x.
Proof. unfold opt_or. now intros ->. Qed.

Lemma opt_or_falsy (x y : option string) : truthy x = false -> opt_or x y = y.
Proof. unfold opt_or. now intros ->. Qed.

(** X6: a non-empty client id and client secret passed to the constructor
    decide the client: it is the OAuth2 client with exactly these two,
    whatever the environment holds, whether or not it may be read, and
    whatever user name and password are around; only the token URL and the
    scope may still come from the environment. *)
Theorem explicit_oauth2_wins (n : Z) (given : Credentials.t)
    (session : option nat) (use_env_credentials : bool)
    (getenv : string -> option string) :
  truthy (Credentials.client_id given) = true ->
  truthy (Credentials.client_secret given) = true ->
  __init__ n given session use_env_credentials getenv =
  (AirTraffic.mk n
     (OAuth2Api (Credentials.client_id given) (Credentials.client_secret given)
        (if use_env_credentials
         then opt_or (Credentials.token_url given) (getenv "OPENSKY_TOKEN_URL"%string)
         else Credentials.token_url given)
        (if use_env_credentials
         then opt_or (Credentials.scope given) (getenv "OPENSKY_SCOPE"%string)
         else Credentials.scope given)
        session),
   InfoOAuth2).
Proof.
  intros Hid Hsecret. unfold __init__.
  destruct use_env_credentials; cbn [fill_from_env Credentials.client_id
    Credentials.client_secret Credentials.token_url Credentials.scope].
  - rewrite !(opt_or_truthy _ _ Hid), !(opt_or_truthy _ _ Hsecret).
    now rewrite Hid, Hsecret.
  - now rewrite Hid, Hsecret.
Qed.

Lemma explicit_oauth2_wins_witness :
  __init__ 7
    (Credentials.mk (Some "user"%string) (Some "pass"%string)
       (Some "my-id"%string) (Some "my-secret"%string) None None)
    None true example_getenv
  = (AirTraffic.mk 7
       (OAuth2Api (Some "my-id"%string) (Some "my-secret"%string) None None None),
     InfoOAuth2).
Proof.
  apply (explicit_oauth2_wins 7
           (Credentials.mk (Some "user"%string) (Some "pass"%string)
              (Some "my-id"%string) (Some "my-secret"%string) None None)
           None true example_getenv); reflexivity.
Defined.

(** X7: without a client secret, neither passed nor (when it may be read)
    in the environment, a client id is ignored: the client is built for
    basic authentication with the user name and password as resolved, and
    the log announces basic authentication only when both are non-empty and
    anonymous access otherwise, also when one of the two is passed on. *)
Theorem oauth2_needs_both (n : Z) (given : Credentials.t)
    (session : option nat) (use_env_credentials : bool)
    (getenv : string -> option string) :
  truthy (Credentials.client_secret given) = false ->
  (use_env_credentials = true ->
   truthy (getenv "OPENSKY_CLIENT_SECRET"%string) = false) ->
  let username :=
    if use_env_credentials
    then opt_or (Credentials.username given) (getenv "OPENSKY_USERNAME"%string)
    else Credentials.username given in
  let password :=
    if use_env_credentials
    then opt_or (Credentials.password given) (getenv "OPENSKY_PASSWORD"%string)
    else Credentials.password given in
  __init__ n given session use_env_credentials getenv =
  (AirTraffic.mk n (BasicApi username password session),
   if truthy username && truthy password then InfoBasicAuth else InfoAnonymous).
Proof.
  intros Hsecret Henv username password. subst username password.
  unfold __init__.
  destruct use_env_credentials; cbn [fill_from_env Credentials.client_id
    Credentials.client_secret Credentials.username Credentials.password].
  - rewrite (opt_or_falsy _ _ Hsecret), (Henv eq_refl), andb_false_r.
    reflexivity.
  - rewrite Hsecret, andb_false_r. reflexivity.
Qed.

Lemma oauth2_needs_both_witness :
  __init__ 7
    (Credentials.mk (Some "user"%string) None (Some "my-id"%string) None
       None None)
    None false example_getenv
  = (AirTraffic.mk 7 (BasicApi (Some "user"%string) None None), InfoAnonymous).
Proof.
  apply (oauth2_needs_both 7
           (Credentials.mk (Some "user"%string) None (Some "my-id"%string) None
              None None)
           None false example_getenv); [reflexivity | discriminate].
Defined.

(** X8: the environment is read only when [use_env_credentials] is set, and
    then only replaces what is missing or empty: without the flag the
    result is the same in every environment, and with it a constructor
    called without client id and secret builds the OAuth2 client from a
    non-empty OPENSKY_CLIENT_ID and OPENSKY_CLIENT_SECRET. *)
Theorem environment_fills_missing (n : Z) (given : Credentials.t)
    (session : option nat) (getenv getenv' : string -> option string) :
  __init__ n given session false getenv = __init__ n given session false getenv'
  /\ (truthy (Credentials.client_id given) = false ->
      truthy (Credentials.client_secret given) = false ->
      truthy (getenv "OPENSKY_CLIENT_ID"%string) = true ->
      truthy (getenv "OPENSKY_CLIENT_SECRET"%string) = true ->
      __init__ n given session true getenv =
      (AirTraffic.mk n
         (OAuth2Api (getenv "OPENSKY_CLIENT_ID"%string)
            (getenv "OPENSKY_CLIENT_SECRET"%string)
            (opt_or (Credentials.token_url given)
               (getenv "OPENSKY_TOKEN_URL"%string))
            (opt_or (Credentials.scope given) (getenv "OPENSKY_SCOPE"%string))
            session),
       InfoOAuth2)).
Proof.
  split; [reflexivity|].
  intros Hid Hsecret Heid Hesecret. unfold __init__.
  cbn [fill_from_env Credentials.client_id Credentials.client_secret
       Credentials.token_url Credentials.scope].
  rewrite !(opt_or_falsy _ _ Hid), !(opt_or_falsy _ _ Hsecret).
  now rewrite Heid, Hesecret.
Qed.

Lemma environment_fills_missing_witness :
  __init__ 7
    (Credentials.mk None None (Some ""%string) None None None)
    None true example_getenv
  = (AirTraffic.mk 7
       (OAuth2Api (Some "env-id"%string) (Some "env-secret"%string) None None
          None),
     InfoOAuth2).
Proof.
  apply (proj2 (environment_fills_missing 7
                  (Credentials.mk None None (Some ""%string) None None None)
                  None example_getenv example_getenv)); reflexivity.
Defined.

End InitExtras.

(* ===================================================================== *)
(** * The cache of the connections *)
(* ===================================================================== *)

Section ConnectionsCache.
Import TTLCache TTLCacheFacts.

Variable mktime : Z -> Z -> Z -> Z -> bool -> outcome Z.

Lemma connections_cache_init_wf : connections_cache_wf connections_cache_init.
Proof. repeat split; simpl; [constructor | lia]. Qed.

(** When its window is computed, [_flight_connections_today] returns. *)
Lemma flight_connections_today_returns (n : Z) (today : Datetime.datetime)
    (icao : string)
    (callback : string -> Z -> Z -> py (option (list FlightData.t)))
    (log0 : list log_record) (b e : Z) :
  _days_span_in_timestamps mktime n today = Returns (b, e) ->
  exists fcs log1,
    _flight_connections_today mktime n today icao callback log0 =
      (Returns fcs, log1) /\
    (connections_failure (fst (callback icao b e log0)) -> fcs = []).
Proof.
  intros Hw. rewrite flight_connections_today_cases, Hw.
  destruct (callback icao b e log0) as [[[l|]|x] log1]; simpl.
  - exists (list_or (Some l)), log1. split; [reflexivity|]. now intros ->.
  - exists [], log1. auto.
  - eexists; eexists. split; [reflexivity | auto].
Qed.

(** One call of a connection handler, by the result of its lookup: on a hit
    the body is not run; on a miss it is, and what it returns is stored,
    while nothing is stored when it raises. *)
Lemma connections_handler_cases (n : Z) (self : nat) (icao : string)
    (f : fetch) (c : TTLCache.t airport_key (list FlightData.t))
    (log0 : list log_record) :
  let k := connections_key self icao in
  let lookup := getitem airport_key_eq_dec (f_lookup f) k c in
  (exists v, fst lookup = Some v /\
     _connections_today_handler mktime n self icao f c log0 =
       (Returns v, snd lookup, log0))
  \/ (fst lookup = None /\
      exists o log1,
        _flight_connections_today mktime n (f_today f) icao (f_callback f) log0
          = (o, log1) /\
        _connections_today_handler mktime n self icao f c log0 =
          (o,
           match o with
           | Returns fcs =>
               setitem airport_key_eq_dec (f_store f) k fcs (snd lookup)
           | Raises _ => snd lookup
           end, log1)).
Proof.
  intros k lookup. unfold _connections_today_handler, cached_connections.
  fold k. fold lookup.
  destruct lookup as [[v|] c'] eqn:E; simpl.
  - left. eauto.
  - right. split; [reflexivity|].
    destruct (_flight_connections_today mktime n (f_today f) icao
                (f_callback f) log0) as [[fcs|x] log1]; eauto.
Qed.

Lemma connections_handler_wf (n : Z) (self : nat) (icao : string)
    (f : fetch)
    (c : TTLCache.t airport_key (list FlightData.t))
    (log0 : list log_record) :
  connections_cache_wf c ->
  connections_cache_wf
    (snd (fst (_connections_today_handler mktime n self icao f c log0))).
Proof.
  intros (Hwf & Hm & Httl).
  destruct (getitem_wf airport_key_eq_dec (f_lookup f)
              (connections_key self icao) c Hwf) as (Hwf1 & Hm1 & Httl1).
  destruct (connections_handler_cases n self icao f c log0)
    as [(v & _ & ->) | (_ & [fcs|x] & log1 & _ & ->)];
    unfold connections_cache_wf; cbn [fst snd].
  - split; [exact Hwf1|]. split; congruence.
  - destruct (setitem_wf airport_key_eq_dec (f_store f)
                (connections_key self icao) fcs _ Hwf1) as (Hwf2 & Hm2 & Httl2).
    split; [exact Hwf2|].
    split; [exact (eq_trans Hm2 (eq_trans Hm1 Hm))
           | exact (eq_trans Httl2 (eq_trans Httl1 Httl))].
  - split; [exact Hwf1|]. split; congruence.
Qed.

Lemma run_fetches_wf (calls : list (Z * nat * string * fetch))
    (c : TTLCache.t airport_key (list FlightData.t))
    (log0 : list log_record) :
  connections_cache_wf c ->
  connections_cache_wf (fst (run_fetches mktime calls c log0)).
Proof.
  revert c log0. induction calls as [|[[[n self] icao] f] calls IH]; simpl;
    intros c log0 Hc; [assumption|].
  pose proof (connections_handler_wf n self icao f c log0 Hc) as Hc1.
  destruct (_connections_today_handler mktime n self icao f c log0)
    as [[r c1] log1]. simpl in Hc1. now apply IH.
Qed.

(** A call made before an item expires keeps it, and returns its list
    without running the body when it is made with the key of the item. *)
Lemma fetch_holds (n : Z) (self : nat) (icao : string) (f : fetch)
    (c : TTLCache.t airport_key (list FlightData.t))
    (log0 : list log_record) (k0 : airport_key) (v0 : list FlightData.t)
    (e0 : Q) (touched : list airport_key) :
  connections_cache_wf c ->
  holds k0 v0 e0 touched (links c) ->
  fetch_before e0 (n, self, icao, f) ->
  (List.length touched + 2 <= 1024)%nat ->
  holds k0 v0 e0 (connections_key self icao :: touched)
    (links (snd (fst (_connections_today_handler mktime n self icao f c log0))))
  /\ (connections_key self icao = k0 ->
      fst (fst (_connections_today_handler mktime n self icao f c log0))
        = Returns v0 /\
      snd (_connections_today_handler mktime n self icao f c log0) = log0).
Proof.
  intros (Hwf & Hm & Httl) Hholds [Hlookup Hstore] Hroom. simpl in *.
  destruct (getitem_wf airport_key_eq_dec (f_lookup f)
              (connections_key self icao) c Hwf) as (Hwf1 & Hm1 & Httl1).
  destruct (getitem_holds airport_key_eq_dec (f_lookup f)
              (connections_key self icao) c k0 v0 e0 touched Hwf Hholds)
    as [Hholds1 Hhit].
  destruct (connections_handler_cases n self icao f c log0)
    as [(v & Ev & ->) | (Ev & o & log1 & _ & ->)]; cbn [fst snd].
  - split; [assumption|]. intros Hk. rewrite (Hhit Hk Hlookup) in Ev.
    split; congruence.
  - assert (Hne : connections_key self icao <> k0).
    { intros Hk. rewrite (Hhit Hk Hlookup) in Ev. discriminate. }
    split; [|contradiction].
    destruct o as [fcs|x]; [|assumption].
    apply setitem_holds; trivial. rewrite Hm1, Hm. exact Hroom.
Qed.

Lemma fetches_hold (calls : list (Z * nat * string * fetch))
    (c : TTLCache.t airport_key (list FlightData.t))
    (log0 : list log_record) (k0 : airport_key) (v0 : list FlightData.t)
    (e0 : Q) (touched : list airport_key) :
  connections_cache_wf c ->
  holds k0 v0 e0 touched (links c) ->
  Forall (fetch_before e0) calls ->
  (List.length touched + List.length calls + 1 <= 1024)%nat ->
  exists touched',
    holds k0 v0 e0 touched' (links (fst (run_fetches mktime calls c log0))).
Proof.
  revert c log0 touched.
  induction calls as [|[[[n self] icao] f] calls IH]; simpl;
    intros c log0 touched Hc Hholds Hbefore Hroom; [eauto|].
  inversion Hbefore as [|? ? Hcall Hcalls]; subst.
  destruct (fetch_holds n self icao f c log0 k0 v0 e0 touched Hc Hholds Hcall)
    as [Hholds1 _]; [lia|].
  pose proof (connections_handler_wf n self icao f c log0 Hc) as Hc1.
  destruct (_connections_today_handler mktime n self icao f c log0)
    as [[r c1] log1]. simpl in *.
  apply (IH c1 log1 _ Hc1 Hholds1 Hcalls). simpl. lia.
Qed.

(** X9: a connection handler keeps what it fetched for ten minutes, a
    failure like an answer.  After a call that misses and whose window is
    computed, which returns the provider's list or the empty list when the
    provider failed, a call for the same instance and airport whose lookup
    is made less than 600 seconds after the store returns that same list
    and logs nothing, whatever the provider would do by then, whatever the
    day is and whatever the span of days is by then, with up to 1023 calls
    of the handler in between, of any instance and span, raising or not. *)
Theorem connections_cached_ten_minutes
    (earlier : list (Z * nat * string * fetch)) (log0 : list log_record)
    (n0 : Z) (self : nat) (icao : string) (f0 : fetch)
    (between : list (Z * nat * string * fetch)) (n1 : Z) (f1 : fetch)
    (b e : Z) :
  let st := run_fetches mktime earlier connections_cache_init log0 in
  let r0 :=
    _connections_today_handler mktime n0 self icao f0 (fst st) (snd st) in
  let st2 := run_fetches mktime between (snd (fst r0)) (snd r0) in
  let r1 :=
    _connections_today_handler mktime n1 self icao f1 (fst st2) (snd st2) in
  fetch_fills self icao f0 (fst st) ->
  _days_span_in_timestamps mktime n0 (f_today f0) = Returns (b, e) ->
  Forall (fetch_before (f_store f0 + 600)%Q) between ->
  (List.length between <= 1023)%nat ->
  (f_lookup f1 < f_store f0 + 600)%Q ->
  exists fcs,
    fst (fst r0) = Returns fcs /\
    (connections_failure (fst (f_callback f0 icao b e (snd st))) ->
     fcs = []) /\
    fst (fst r1) = Returns fcs /\
    snd r1 = snd st2.
Proof.
  intros st r0 st2 r1 Hfills Hwindow Hbetween Hlen Hlookup.
  assert (Hc : connections_cache_wf (fst st))
    by (apply run_fetches_wf, connections_cache_init_wf).
  pose proof (connections_handler_wf n0 self icao f0 (fst st) (snd st) Hc)
    as Hc1.
  fold r0 in Hc1.
  assert (Hc2 : connections_cache_wf (fst st2)) by now apply run_fetches_wf.
  destruct Hc as (Hwf & Hm & Httl).
  destruct (getitem_wf airport_key_eq_dec (f_lookup f0)
              (connections_key self icao) (fst st) Hwf) as (Hwf' & Hm' & Httl').
  unfold fetch_fills in Hfills.
  destruct (flight_connections_today_returns n0 (f_today f0) icao
              (f_callback f0) (snd st) b e Hwindow)
    as (fcs & log1 & Efetch & Hfail).
  destruct (connections_handler_cases n0 self icao f0 (fst st) (snd st))
    as [(v & Ev & _) | (_ & o & log1' & Efetch' & Er0)]; [congruence|].
  fold r0 in Er0.
  rewrite Efetch in Efetch'. injection Efetch' as <- <-.
  exists fcs. split; [now rewrite Er0|]. split; [exact Hfail|].
  assert (Hholds : holds (connections_key self icao) fcs (f_store f0 + 600)%Q []
                     (links (snd (fst r0)))).
  { rewrite Er0. cbn [fst snd]. rewrite <- Httl, <- Httl'.
    apply setitem_creates. rewrite Hm', Hm. lia. }
  destruct (fetches_hold between (snd (fst r0)) (snd r0)
              (connections_key self icao) fcs (f_store f0 + 600)%Q []
              Hc1 Hholds Hbetween) as [touched Hholds2]; [simpl; lia|].
  fold st2 in Hholds2.
  destruct (getitem_holds airport_key_eq_dec (f_lookup f1)
              (connections_key self icao) (fst st2)
              (connections_key self icao) fcs (f_store f0 + 600)%Q touched
              (proj1 Hc2) Hholds2) as [_ Hhit].
  specialize (Hhit eq_refl Hlookup).
  destruct (connections_handler_cases n1 self icao f1 (fst st2) (snd st2))
    as [(v & Ev & Er1) | (Ev & _)]; [|congruence].
  fold r1 in Er1. rewrite Er1. cbn [fst snd]. split; congruence.
Qed.

End ConnectionsCache.

(** The provider is down at the first call; five minutes later it would
    answer, and the span of the instance has become a million days, whose
    window raises: the second call still returns the empty list of the
    first. *)
Lemma connections_cached_ten_minutes_witness :
  exists fcs,
    fst (fst (_connections_today_handler mktime_utc 7 0 "EDDF"
                example_failed_fetch connections_cache_init []))
      = Returns fcs /\
    fcs = [] /\
    fst (fst (_connections_today_handler mktime_utc 1000000 0 "EDDF"
                example_later_fetch
                (snd (fst (_connections_today_handler mktime_utc 7 0 "EDDF"
                             example_failed_fetch connections_cache_init [])))
                (snd (_connections_today_handler mktime_utc 7 0 "EDDF"
                        example_failed_fetch connections_cache_init []))))
      = Returns fcs.
Proof.
  destruct (connections_cached_ten_minutes mktime_utc [] [] 7 0 "EDDF"
              example_failed_fetch [] 1000000 example_later_fetch
              1793059200 1793750399)
    as (fcs & E0 & Hfail & E1 & _).
  - reflexivity.
  - vm_compute. reflexivity.
  - constructor.
  - simpl. lia.
  - reflexivity.
  - exists fcs. split; [exact E0|]. split; [|exact E1]. apply Hfail. exact I.
Defined.

(* ===================================================================== *)
(** * The public handlers *)
(* ===================================================================== *)

Section HandlerFacts.
Import PyDictFacts TTLCache TTLCacheFacts.

Variable mktime : Z -> Z -> Z -> Z -> bool -> outcome Z.
Variable json_dumps : list AirTrafficData.t -> string.

Lemma join_empty_states (fcs : list FlightData.t) : join [] fcs = [].
Proof.
  rewrite join_as_map, filter_none; [reflexivity|]. now intros [k fc] _.
Qed.

Lemma join_no_connections (sd : PyDict.t StateVector.t) : join sd [] = [].
Proof. reflexivity. Qed.

Lemma handler_on_list (airport : string) (sd : PyDict.t StateVector.t)
    (fcs : list FlightData.t) :
  _flight_connection_handler airport sd (fun _ => Some fcs) = join sd fcs.
Proof. unfold _flight_connection_handler. now destruct fcs. Qed.

Lemma get_states_dict_returns (c : call) (w : world) :
  exists r, get_states_dict c w = (Returns r, snd (get_states_dict c w)).
Proof.
  destruct (get_states_dict_cases c w)
    as [(v & _ & ->) | (_ & sts & log1 & _ & ->)]; eauto.
Qed.

(** A connection handler raises exactly when its lookup misses and the
    window raises, and then what the window raises. *)
Lemma connections_handler_raises (n : Z) (self : nat) (icao : string)
    (f : fetch) (c : TTLCache.t airport_key (list FlightData.t))
    (log0 : list log_record) (x : exn) :
  fst (fst (_connections_today_handler mktime n self icao f c log0))
    = Raises x
  <-> fetch_fills self icao f c /\
      _days_span_in_timestamps mktime n (f_today f) = Raises x.
Proof.
  unfold fetch_fills.
  destruct (connections_handler_cases mktime n self icao f c log0)
    as [(v & Ev & ->) | (Ev & o & log1 & Efetch & ->)]; cbn [fst].
  - split; [discriminate|]. intros [H _]. congruence.
  - rewrite <- (flight_connections_today_raises mktime n (f_today f) icao
                  (f_callback f) log0 x), Efetch. cbn [fst]. tauto.
Qed.

(** What a handler computes: the snapshot, the connections, the message;
    what the connection handler raises, the handler raises. *)
Lemma handler_body_cases (inst : AirTraffic.t) (self : nat)
    (airport : string) (around : surroundings) (w : world)
    (c : TTLCache.t airport_key (list FlightData.t)) :
  let sc := handler_call self (s_lookup around) (s_store around)
              (s_get_states around) in
  let w1 := snd (get_states_dict sc w) in
  exists r o c1 log1,
    fst (get_states_dict sc w) = Returns r /\
    _connections_today_handler mktime
      (AirTraffic.traffic_time_span_in_days inst) self airport
      (s_fetch around) c (log w1) = (o, c1, log1) /\
    handler_body mktime json_dumps inst self airport around w c =
      (match o with
       | Returns fcs =>
           Returns (Message.mk (json_dumps (join (deref w1 r) fcs))
                      "application/json")
       | Raises x => Raises x
       end, set_log w1 log1, c1).
Proof.
  intros sc w1. unfold handler_body. fold sc.
  destruct (get_states_dict_returns sc w) as [r Er]. fold w1 in Er.
  destruct (_connections_today_handler mktime
              (AirTraffic.traffic_time_span_in_days inst) self airport
              (s_fetch around) c (log w1)) as [[o c1] log1] eqn:Ec.
  exists r, o, c1, log1. rewrite Er. cbn [fst]. rewrite Ec.
  destruct o as [fcs|x]; [|auto]. now rewrite handler_on_list.
Qed.

Lemma fill_content (c : call) (w : world) :
  fills c w ->
  exists sts log1,
    _get_states (client_get_states c) (log w) = (Returns sts, log1) /\
    fst (get_states_dict c w) = Returns (List.length (heap w)) /\
    heap (snd (get_states_dict c w)) = heap w ++ [states_to_dict sts].
Proof.
  intros Hfills. unfold fills in Hfills.
  destruct (get_states_dict_cases c w)
    as [(v & Ev & _) | (_ & sts & log1 & E & ->)]; [congruence|].
  exists sts, log1. auto.
Qed.

Lemma get_states_failure (client : py (option OpenSkyStates))
    (log0 log1 : list log_record) (sts : list StateVector.t) :
  states_failure (fst (client log0)) ->
  _get_states client log0 = (Returns sts, log1) -> sts = [].
Proof.
  rewrite get_states_cases.
  destruct (client log0) as [[[o|]|e] l]; simpl.
  - intros [H|H] [= <- _]; now rewrite H.
  - now intros _ [= <- _].
  - now intros _ [= <- _].
Qed.

(** The dictionaries already allocated stay where they are. *)
Lemma get_states_dict_heap (c : call) (w : world) :
  exists ext, heap (snd (get_states_dict c w)) = heap w ++ ext.
Proof.
  destruct (get_states_dict_cases c w)
    as [(v & _ & ->) | (_ & sts & log1 & _ & ->)]; cbn [snd heap].
  - exists []. now rewrite app_nil_r.
  - eauto.
Qed.

(** The world that a handler leaves, returning or raising, is that of its
    call of [get_states_dict], with a longer log. *)
Lemma handle_world (q : request) (s : service) :
  exists log1,
    sv_world (snd (handle mktime json_dumps q s)) =
    set_log (snd (get_states_dict (request_states_call q) (sv_world s))) log1.
Proof.
  unfold handle, arrivals_handler, departures_handler, request_states_call.
  destruct (q_direction q).
  - destruct (handler_body_cases (q_instance q) (q_self q) (q_airport q)
                (q_around q) (sv_world s) (sv_arrivals s))
      as (r & o & c1 & log1 & _ & _ & ->). now exists log1.
  - destruct (handler_body_cases (q_instance q) (q_self q) (q_airport q)
                (q_around q) (sv_world s) (sv_departures s))
      as (r & o & c1 & log1 & _ & _ & ->). now exists log1.
Qed.

Lemma handle_wf (q : request) (s : service) :
  world_wf (sv_world s) ->
  world_wf (sv_world (snd (handle mktime json_dumps q s))).
Proof.
  intros Hw. destruct (handle_world q s) as [log1 ->].
  apply (get_states_dict_wf (request_states_call q)) in Hw. exact Hw.
Qed.

Lemma run_handlers_wf (qs : list request) (s : service) :
  world_wf (sv_world s) ->
  world_wf (sv_world (snd (run_handlers mktime json_dumps qs s))).
Proof.
  revert s. induction qs as [|q qs IH]; simpl; intros s Hw; [assumption|].
  pose proof (handle_wf q s Hw) as Hw1.
  destruct (handle mktime json_dumps q s) as [m s1]. simpl in Hw1.
  specialize (IH s1 Hw1).
  destruct (run_handlers mktime json_dumps qs s1) as [ms s2]. exact IH.
Qed.

Lemma run_handlers_hold (qs : list request) (s : service) (k0 : hashkey)
    (v0 : ref) (e0 : Q) (touched : list hashkey) (d : PyDict.t StateVector.t) :
  world_wf (sv_world s) ->
  holds k0 v0 e0 touched (links (cache (sv_world s))) ->
  deref (sv_world s) v0 = d -> (v0 < List.length (heap (sv_world s)))%nat ->
  Forall (request_before e0) qs ->
  (List.length touched + List.length qs + 1 <= 1024)%nat ->
  let s2 := snd (run_handlers mktime json_dumps qs s) in
  (exists touched', holds k0 v0 e0 touched' (links (cache (sv_world s2))))
  /\ deref (sv_world s2) v0 = d.
Proof.
  revert s touched. induction qs as [|q qs IH]; simpl;
    intros s touched Hw Hholds Hd Hv Hbefore Hroom; [eauto|].
  inversion Hbefore as [|? ? Hq Hqs]; subst.
  destruct (call_holds (request_states_call q) (sv_world s) k0 v0 e0 touched
              Hw Hholds Hq) as [Hholds1 _]; [lia|].
  destruct (get_states_dict_heap (request_states_call q) (sv_world s))
    as [ext Hext].
  pose proof (handle_wf q s Hw) as Hw1.
  destruct (handle_world q s) as [log1 Hworld].
  destruct (handle mktime json_dumps q s) as [m s1]. simpl in *.
  assert (Hcache : cache (sv_world s1) =
            cache (snd (get_states_dict (request_states_call q) (sv_world s))))
    by now rewrite Hworld.
  assert (Hheap : heap (sv_world s1) = heap (sv_world s) ++ ext)
    by now rewrite Hworld.
  specialize (IH s1 (call_key (request_states_call q) :: touched) Hw1).
  destruct (run_handlers mktime json_dumps qs s1) as [ms s2]. simpl in *.
  apply IH; trivial.
  - now rewrite Hcache.
  - unfold deref. rewrite Hheap, app_nth1 by assumption. reflexivity.
  - rewrite Hheap, length_app. lia.
  - simpl. lia.
Qed.

(** The result of a handler call, by the result of its connection
    handler. *)
Lemma handle_result (q : request) (s : service) :
  let w1 := snd (get_states_dict (request_states_call q) (sv_world s)) in
  exists r,
    fst (get_states_dict (request_states_call q) (sv_world s)) = Returns r /\
    fst (handle mktime json_dumps q s) =
      match fst (fst (request_connections mktime q s)) with
      | Returns fcs =>
          Returns (Message.mk (json_dumps (join (deref w1 r) fcs))
                     "application/json")
      | Raises x => Raises x
      end.
Proof.
  intros w1. unfold handle, arrivals_handler, departures_handler,
    request_connections, request_cache. unfold request_states_call in *.
  destruct (q_direction q).
  - destruct (handler_body_cases (q_instance q) (q_self q) (q_airport q)
                (q_around q) (sv_world s) (sv_arrivals s))
      as (r & o & c1 & log1 & Er & Ec & ->).
    exists r. rewrite Ec. auto.
  - destruct (handler_body_cases (q_instance q) (q_self q) (q_airport q)
                (q_around q) (sv_world s) (sv_departures s))
      as (r & o & c1 & log1 & Er & Ec & ->).
    exists r. rewrite Ec. auto.
Qed.

(** A handler raises exactly when its connection handler misses and the
    window raises. *)
Lemma handle_raises (q : request) (s : service) (x : exn) :
  fst (handle mktime json_dumps q s) = Raises x
  <-> fetch_fills (q_self q) (q_airport q) (s_fetch (q_around q))
        (request_cache q s) /\
      request_window mktime q = Raises x.
Proof.
  destruct (handle_result q s) as (r & _ & ->).
  unfold request_window, request_connections.
  rewrite <- (connections_handler_raises
                (AirTraffic.traffic_time_span_in_days (q_instance q))
                (q_self q) (q_airport q) (s_fetch (q_around q))
                (request_cache q s)
                (log (snd (get_states_dict (request_states_call q)
                             (sv_world s)))) x).
  match goal with
  | |- context [fst (fst ?t)] => destruct (fst (fst t)) as [fcs|y]
  end.
  - split; discriminate.
  - split; intros [= ->]; reflexivity.
Qed.

(** It returns when the airport is in the cache of its connection handler,
    and when the window is computed. *)
Lemma handle_returns (q : request) (s : service) :
  ~ fetch_fills (q_self q) (q_airport q) (s_fetch (q_around q))
      (request_cache q s)
  \/ (exists b e, request_window mktime q = Returns (b, e)) ->
  exists msg, fst (handle mktime json_dumps q s) = Returns msg.
Proof.
  intros H.
  destruct (fst (handle mktime json_dumps q s)) as [msg|x] eqn:E; [eauto|].
  apply handle_raises in E. destruct E as [Hfills Hraises].
  destruct H as [H | (b & e & H)]; [contradiction | congruence].
Qed.

(** X10: a public handler raises only for its time window, whatever the
    provider calls do: it raises exactly when the airport is not in the
    cache of its connection handler and the window of the call raises, and
    then what the window raises.  Otherwise it returns a message of content
    type "application/json" whose body is the serialisation of the join of
    the snapshot that [get_states_dict] returned with the list that the
    connection handler returned. *)
Theorem handlers_raise_only_for_the_window (q : request) (s : service) :
  let w1 := snd (get_states_dict (request_states_call q) (sv_world s)) in
  (forall x,
     fst (handle mktime json_dumps q s) = Raises x
     <-> fetch_fills (q_self q) (q_airport q) (s_fetch (q_around q))
           (request_cache q s) /\
         request_window mktime q = Raises x)
  /\ (forall msg,
        fst (handle mktime json_dumps q s) = Returns msg ->
        exists r fcs,
          fst (get_states_dict (request_states_call q) (sv_world s))
            = Returns r /\
          fst (fst (request_connections mktime q s)) = Returns fcs /\
          msg = Message.mk (json_dumps (join (deref w1 r) fcs))
                  "application/json")
  /\ (~ fetch_fills (q_self q) (q_airport q) (s_fetch (q_around q))
          (request_cache q s)
      \/ (exists b e, request_window mktime q = Returns (b, e)) ->
      exists msg, fst (handle mktime json_dumps q s) = Returns msg).
Proof.
  intros w1. split; [|split].
  - intros x. apply handle_raises.
  - intros msg E. destruct (handle_result q s) as (r & Er & E').
    fold w1 in E'. rewrite E' in E.
    destruct (fst (fst (request_connections mktime q s))) as [fcs|x];
      [|discriminate].
    injection E as <-. exists r, fcs. auto.
  - apply handle_returns.
Qed.

(** X11: when the call reaches the states provider (the snapshot is not
    cached) and the provider fails or gives nothing, the message that the
    handler returns is the serialisation of the empty list, whatever the
    connections are; and the handler returns it when the airport is in the
    cache of its connection handler or the window is computed. *)
Theorem failed_snapshot_empties_output (q : request) (s : service) :
  fills (request_states_call q) (sv_world s) ->
  states_failure (fst (s_get_states (q_around q) (log (sv_world s)))) ->
  (forall msg,
     fst (handle mktime json_dumps q s) = Returns msg ->
     msg = Message.mk (json_dumps []) "application/json")
  /\ (~ fetch_fills (q_self q) (q_airport q) (s_fetch (q_around q))
          (request_cache q s)
      \/ (exists b e, request_window mktime q = Returns (b, e)) ->
      fst (handle mktime json_dumps q s) =
        Returns (Message.mk (json_dumps []) "application/json")).
Proof.
  intros Hfills Hfail.
  assert (Hmsg : forall msg,
            fst (handle mktime json_dumps q s) = Returns msg ->
            msg = Message.mk (json_dumps []) "application/json").
  { intros msg E.
    destruct (fill_content _ _ Hfills) as (sts & log1 & Ests & Er & Hheap).
    apply (get_states_failure _ _ _ _ Hfail) in Ests. subst sts.
    destruct (handle_result q s) as (r & Er' & E').
    rewrite E' in E.
    destruct (fst (fst (request_connections mktime q s))) as [fcs|x];
      [|discriminate].
    injection E as <-.
    rewrite Er in Er'. injection Er' as <-.
    unfold deref. rewrite Hheap, nth_middle. simpl.
    now rewrite join_empty_states. }
  split; [exact Hmsg|].
  intros H. destruct (handle_returns q s H) as [msg E].
  rewrite E. f_equal. now apply Hmsg.
Qed.

(** X12: when the call reaches the connections provider (the airport is not
    in the cache of the handler), the window is computed and the provider
    fails or gives nothing, the handler returns the serialisation of the
    empty list. *)
Theorem failed_connections_empty_output (q : request) (s : service)
    (b e : Z) :
  let w1 := snd (get_states_dict (request_states_call q) (sv_world s)) in
  let f := s_fetch (q_around q) in
  fetch_fills (q_self q) (q_airport q) f (request_cache q s) ->
  request_window mktime q = Returns (b, e) ->
  connections_failure (fst (f_callback f (q_airport q) b e (log w1))) ->
  fst (handle mktime json_dumps q s) =
    Returns (Message.mk (json_dumps []) "application/json").
Proof.
  intros w1 f Hfills Hwindow Hfail. unfold fetch_fills in Hfills.
  destruct (handle_result q s) as (r & _ & ->).
  unfold request_connections. fold w1 f.
  set (n := AirTraffic.traffic_time_span_in_days (q_instance q)).
  destruct (connections_handler_cases mktime n (q_self q) (q_airport q) f
              (request_cache q s) (log w1))
    as [(v & Ev & _) | (_ & o & log1 & Efetch & ->)]; [congruence|].
  destruct (flight_connections_today_returns mktime n (f_today f)
              (q_airport q) (f_callback f) (log w1) b e Hwindow)
    as (fcs & log1' & Efetch' & Hempty).
  rewrite Efetch' in Efetch. injection Efetch as <- <-. cbn [fst].
  now rewrite (Hempty Hfail).
Qed.

(** X13: the handlers of an instance share the snapshot for 30 seconds.
    After a handler call that reaches the states provider, a handler call
    of the same instance whose lookup is made less than 30 seconds after
    the store, with up to 1023 handler calls in between, returning or
    raising, joins the states retrieved then: the message that it returns
    is the serialisation of their join with some connections, and of the
    empty list when the provider failed then, even if the provider answers
    by now; and it returns when the airport is in the cache of its
    connection handler or its window is computed. *)
Theorem snapshot_shared_thirty_seconds (earlier : list request)
    (q0 : request) (between : list request) (q1 : request) :
  let s := snd (run_handlers mktime json_dumps earlier service_init) in
  let s1 := snd (handle mktime json_dumps q0 s) in
  let s2 := snd (run_handlers mktime json_dumps between s1) in
  let e0 := (s_store (q_around q0) + 30)%Q in
  fills (request_states_call q0) (sv_world s) ->
  Forall (request_before e0) between ->
  (List.length between <= 1023)%nat ->
  q_self q1 = q_self q0 ->
  (s_lookup (q_around q1) < e0)%Q ->
  exists sts log1,
    _get_states (s_get_states (q_around q0)) (log (sv_world s))
      = (Returns sts, log1) /\
    (forall msg,
       fst (handle mktime json_dumps q1 s2) = Returns msg ->
       (exists fcs,
          fst (fst (request_connections mktime q1 s2)) = Returns fcs /\
          msg = Message.mk (json_dumps (join (states_to_dict sts) fcs))
                  "application/json") /\
       (states_failure
          (fst (s_get_states (q_around q0) (log (sv_world s)))) ->
        msg = Message.mk (json_dumps []) "application/json")) /\
    (~ fetch_fills (q_self q1) (q_airport q1) (s_fetch (q_around q1))
         (request_cache q1 s2)
     \/ (exists b e, request_window mktime q1 = Returns (b, e)) ->
     exists msg, fst (handle mktime json_dumps q1 s2) = Returns msg).
Proof.
  intros s s1 s2 e0 Hfills Hbetween Hlen Hself Hlookup.
  assert (Hw : world_wf (sv_world s))
    by (apply run_handlers_wf, world_init_wf).
  destruct (fill_content _ _ Hfills) as (sts & log1 & Ests & Er & Hheap).
  destruct (fill_holds _ _ Hw Hfills) as (v & Ev & Hholds).
  rewrite Er in Ev. injection Ev as <-.
  exists sts, log1. split; [exact Ests|].
  split; [|apply handle_returns].
  destruct (handle_world q0 s) as [log2 Hworld]. fold s1 in Hworld.
  assert (Hw1 : world_wf (sv_world s1)) by now apply handle_wf.
  set (v := List.length (heap (sv_world s))) in *.
  assert (Hholds1 : holds (call_key (request_states_call q0)) v e0 []
                      (links (cache (sv_world s1)))).
  { rewrite Hworld. exact Hholds. }
  assert (Hd1 : deref (sv_world s1) v = states_to_dict sts).
  { unfold deref. rewrite Hworld. cbn [set_log heap].
    rewrite Hheap. apply nth_middle. }
  assert (Hv1 : (v < List.length (heap (sv_world s1)))%nat).
  { rewrite Hworld. cbn [set_log heap]. rewrite Hheap, length_app.
    simpl. unfold v. lia. }
  destruct (run_handlers_hold between s1 _ v e0 [] _ Hw1 Hholds1 Hd1 Hv1
              Hbetween) as [[touched Hholds2] Hd2]; [simpl; lia|].
  fold s2 in Hholds2, Hd2.
  assert (Hw2 : world_wf (sv_world s2)) by now apply run_handlers_wf.
  assert (Hkey : call_key (request_states_call q1)
                 = call_key (request_states_call q0)).
  { unfold call_key, request_states_call, handler_call. simpl.
    now rewrite Hself. }
  destruct (getitem_holds hashkey_eq_dec (s_lookup (q_around q1))
              (call_key (request_states_call q1)) (cache (sv_world s2))
              _ v e0 touched (proj1 Hw2) Hholds2) as [_ Hhit].
  specialize (Hhit Hkey Hlookup).
  destruct (handle_result q1 s2) as (r & Er1 & Emsg).
  assert (Hsame : r = v /\
            deref (snd (get_states_dict (request_states_call q1) (sv_world s2))) v
            = states_to_dict sts).
  { destruct (get_states_dict_cases (request_states_call q1) (sv_world s2))
      as [(v' & Ev' & E) | (Ev' & _)].
    - change (t_lookup (request_states_call q1)) with (s_lookup (q_around q1))
        in Ev'.
      rewrite Hhit in Ev'. injection Ev' as <-.
      rewrite E in Er1 |- *. cbn [fst snd] in *. injection Er1 as <-.
      split; [reflexivity|]. exact Hd2.
    - change (t_lookup (request_states_call q1)) with (s_lookup (q_around q1))
        in Ev'.
      congruence. }
  destruct Hsame as [-> Hd3]. rewrite Hd3 in Emsg.
  intros msg E. rewrite Emsg in E.
  destruct (fst (fst (request_connections mktime q1 s2))) as [fcs|x];
    [|discriminate].
  injection E as <-. split; [eauto|].
  intros Hfail. apply (get_states_failure _ _ _ _ Hfail) in Ests. subst sts.
  simpl. now rewrite join_empty_states.
Qed.

End HandlerFacts.

(** An instance that looks a million days back raises [OverflowError] on a
    request whose airport is not in the cache; the instance that looks a
    week back answers. *)
Lemma handlers_raise_only_for_the_window_witness :
  (exists x,
     fst (handle mktime_utc example_dumps example_far_request service_init)
       = Raises x /\
     exn_class x = "OverflowError"%string)
  /\ (exists msg,
        fst (handle mktime_utc example_dumps example_recovered service_init)
          = Returns msg).
Proof.
  split.
  - exists (Datetime.overflow_error "date value out of range").
    split; [|reflexivity].
    apply (proj1 (handlers_raise_only_for_the_window mktime_utc example_dumps
                    example_far_request service_init)).
    split; [reflexivity | vm_compute; reflexivity].
  - apply (proj2 (proj2 (handlers_raise_only_for_the_window mktime_utc
                           example_dumps example_recovered service_init))).
    right. exists 1793059200, 1793750399. vm_compute. reflexivity.
Defined.

Lemma failed_snapshot_empties_output_witness :
  fst (handle mktime_utc example_dumps example_outage service_init) =
    Returns (Message.mk (example_dumps []) "application/json").
Proof.
  apply (failed_snapshot_empties_output mktime_utc example_dumps
           example_outage service_init); [reflexivity | exact I |].
  right. exists 1793059200, 1793750399. vm_compute. reflexivity.
Defined.

Lemma failed_connections_empty_output_witness :
  fst (handle mktime_utc example_dumps example_connections_outage service_init)
  = Returns (Message.mk (example_dumps []) "application/json").
Proof.
  apply (failed_connections_empty_output mktime_utc example_dumps
           example_connections_outage service_init 1793059200 1793750399);
    [reflexivity | vm_compute; reflexivity | exact I].
Defined.

Lemma snapshot_shared_thirty_seconds_witness :
  fst (handle mktime_utc example_dumps example_recovered
         (snd (handle mktime_utc example_dumps example_outage service_init)))
  = Returns (Message.mk (example_dumps []) "application/json").
Proof.
  destruct (snapshot_shared_thirty_seconds mktime_utc example_dumps []
              example_outage [] example_recovered)
    as (sts & log1 & _ & Hmsg & Hreturns).
  - reflexivity.
  - constructor.
  - simpl. lia.
  - reflexivity.
  - reflexivity.
  - destruct Hreturns as [msg E].
    + right. exists 1793059200, 1793750399. vm_compute. reflexivity.
    + transitivity (Returns msg); [exact E|].
      f_equal. apply (Hmsg msg E). exact I.
Defined.

(* ===================================================================== *)
(** * What the retrieval logs, and when the snapshot is fetched again *)
(* ===================================================================== *)

Section RetrievalExtras.
Import TTLCache TTLCacheFacts.

(** X14: an exception of the provider is logged once, after what the
    provider call logged itself: [_get_states] appends one record with the
    exception, [_flight_connections_today] one with the airport, the window
    asked for and the exception; a call that returns adds nothing to what
    the provider call logged.  When the window raises,
    [_flight_connections_today] logs nothing. *)
Theorem provider_errors_are_logged
    (mktime : Z -> Z -> Z -> Z -> bool -> outcome Z) (n : Z)
    (today : Datetime.datetime) (icao : string)
    (client : py (option OpenSkyStates))
    (callback : string -> Z -> Z -> py (option (list FlightData.t)))
    (log0 : list log_record) :
  (forall e log1, client log0 = (Raises e, log1) ->
     snd (_get_states client log0) = log1 ++ [StatesError e])
  /\ (forall o log1, client log0 = (Returns o, log1) ->
        snd (_get_states client log0) = log1)
  /\ (forall begin end_,
        _days_span_in_timestamps mktime n today = Returns (begin, end_) ->
        (forall e log1, callback icao begin end_ log0 = (Raises e, log1) ->
           snd (_flight_connections_today mktime n today icao callback log0)
           = log1 ++ [ConnectionsError icao begin end_ e])
        /\ (forall o log1, callback icao begin end_ log0 = (Returns o, log1) ->
              snd (_flight_connections_today mktime n today icao callback
                     log0)
              = log1))
  /\ (forall x,
        _days_span_in_timestamps mktime n today = Raises x ->
        snd (_flight_connections_today mktime n today icao callback log0)
        = log0).
Proof.
  split; [|split; [|split]].
  - intros e log1 E. now rewrite get_states_cases, E.
  - intros o log1 E. rewrite get_states_cases, E. now destruct o.
  - intros b e Hw. split.
    + intros x log1 E. now rewrite flight_connections_today_cases, Hw, E.
    + intros o log1 E. now rewrite flight_connections_today_cases, Hw, E.
  - intros x Hw. now rewrite flight_connections_today_cases, Hw.
Qed.

Lemma provider_errors_are_logged_witness :
  snd (_get_states client_unreachable []) = [] ++ [StatesError example_timeout]
  /\ snd (_flight_connections_today mktime_utc 7 example_today "EDDF"
            callback_unreachable [])
     = [] ++ [ConnectionsError "EDDF" 1793059200 1793750399 example_timeout]
  /\ snd (_flight_connections_today mktime_utc 1000000 example_today "EDDF"
            callback_unreachable [])
     = [].
Proof.
  split; [|split].
  - apply (proj1 (provider_errors_are_logged mktime_utc 7 example_today
                    "EDDF" client_unreachable callback_unreachable [])).
    reflexivity.
  - apply (proj1 (proj1 (proj2 (proj2
             (provider_errors_are_logged mktime_utc 7 example_today
                "EDDF" client_unreachable callback_unreachable [])))
             1793059200 1793750399 ltac:(vm_compute; reflexivity))).
    reflexivity.
  - apply (proj2 (proj2 (proj2
             (provider_errors_are_logged mktime_utc 1000000 example_today
                "EDDF" client_unreachable callback_unreachable [])))
             (Datetime.overflow_error "date value out of range")).
    vm_compute. reflexivity.
Defined.

Lemma Qlt_bool_false (x y : Q) : (y <= x)%Q -> Qlt_bool x y = false.
Proof.
  intros H. unfold Qlt_bool. apply Qle_bool_iff in H. now rewrite H.
Qed.

(** X15: the snapshot is fetched again once it has expired.  After a call
    that fills its slot, the next call with the same arguments whose lookup
    is made 30 seconds or more after the store misses, runs the body again
    and returns another dictionary than the first. *)
Theorem snapshot_expires (earlier : list call) (c0 c1 : call) :
  let w := snd (run_calls earlier world_init) in
  let w1 := snd (get_states_dict c0 w) in
  fills c0 w ->
  same_arguments c0 c1 ->
  (t_store c0 + 30 <= t_lookup c1)%Q ->
  fills c1 w1 /\
  exists v0 v1,
    fst (get_states_dict c0 w) = Returns v0 /\
    fst (get_states_dict c1 w1) = Returns v1 /\
    v1 <> v0.
Proof.
  intros w w1 Hfills Hsame Hlate.
  assert (Hw : world_wf w) by (apply run_calls_wf, world_init_wf).
  assert (Hw1 : world_wf w1) by now apply get_states_dict_wf.
  destruct (fill_holds c0 w Hw Hfills) as (v & Ev & Hholds). fold w1 in Hholds.
  destruct (fill_content c0 w Hfills) as (sts & log1 & _ & Er & Hheap).
  fold w1 in Hheap.
  pose proof (holds_find hashkey_eq_dec _ _ _ _ _ (proj1 (proj1 Hw1)) Hholds)
    as Hfind.
  assert (Hmiss : fills c1 w1).
  { unfold fills. rewrite getitem_spec.
    rewrite <- (same_arguments_key c0 c1 Hsame), Hfind. cbn [expires fst].
    now rewrite (Qlt_bool_false _ _ Hlate). }
  split; [exact Hmiss|].
  destruct (fill_content c1 w1 Hmiss) as (sts1 & log2 & _ & Er1 & _).
  exists (List.length (heap w)), (List.length (heap w1)).
  repeat split; trivial.
  rewrite Hheap, length_app. simpl. lia.
Qed.

Lemma snapshot_expires_witness :
  exists v0 v1,
    fst (get_states_dict example_first_call world_init) = Returns v0 /\
    fst (get_states_dict (handler_call 0 30%Q 30%Q client_answers)
           (snd (get_states_dict example_first_call world_init)))
      = Returns v1 /\
    v1 <> v0.
Proof.
  apply (snapshot_expires [] example_first_call
           (handler_call 0 30%Q 30%Q client_answers)).
  - reflexivity.
  - split; reflexivity.
  - discriminate.
Defined.

End RetrievalExtras.

Section ConnectionsExpiry.
Import TTLCache TTLCacheFacts.

Variable mktime : Z -> Z -> Z -> Z -> bool -> outcome Z.

(** X16: the connections are fetched again once they have expired.  After
    a call of a connection handler that misses and whose window is
    computed, the next call for the same instance and airport whose lookup
    is made 600 seconds or more after the store misses too, and returns,
    raises and logs what [_flight_connections_today] does then, with the
    span of days that the instance has then. *)
Theorem connections_expire (earlier : list (Z * nat * string * fetch))
    (log0 : list log_record) (n0 n1 : Z) (self : nat) (icao : string)
    (f0 f1 : fetch) (b e : Z) :
  let st := run_fetches mktime earlier connections_cache_init log0 in
  let r0 :=
    _connections_today_handler mktime n0 self icao f0 (fst st) (snd st) in
  let r1 :=
    _connections_today_handler mktime n1 self icao f1 (snd (fst r0))
      (snd r0) in
  fetch_fills self icao f0 (fst st) ->
  _days_span_in_timestamps mktime n0 (f_today f0) = Returns (b, e) ->
  (f_store f0 + 600 <= f_lookup f1)%Q ->
  fetch_fills self icao f1 (snd (fst r0)) /\
  fst (fst r1) =
    fst (_flight_connections_today mktime n1 (f_today f1) icao (f_callback f1)
           (snd r0)) /\
  snd r1 =
    snd (_flight_connections_today mktime n1 (f_today f1) icao (f_callback f1)
           (snd r0)).
Proof.
  intros st r0 r1 Hfills Hwindow Hlate.
  assert (Hc : connections_cache_wf (fst st))
    by (apply run_fetches_wf, connections_cache_init_wf).
  pose proof (connections_handler_wf mktime n0 self icao f0 (fst st) (snd st)
                Hc) as Hc1. fold r0 in Hc1.
  destruct Hc as (Hwf & Hm & Httl).
  destruct (getitem_wf airport_key_eq_dec (f_lookup f0)
              (connections_key self icao) (fst st) Hwf) as (Hwf' & Hm' & Httl').
  unfold fetch_fills in Hfills.
  destruct (flight_connections_today_returns mktime n0 (f_today f0) icao
              (f_callback f0) (snd st) b e Hwindow)
    as (fcs & log1 & Efetch0 & _).
  destruct (connections_handler_cases mktime n0 self icao f0 (fst st) (snd st))
    as [(v & Ev & _) | (_ & o & log1' & Efetch0' & Er0)]; [congruence|].
  fold r0 in Er0.
  rewrite Efetch0 in Efetch0'. injection Efetch0' as <- <-.
  assert (Hholds : holds (connections_key self icao) fcs (f_store f0 + 600)%Q []
                     (links (snd (fst r0)))).
  { rewrite Er0. cbn [fst snd]. rewrite <- Httl, <- Httl'.
    apply setitem_creates. rewrite Hm', Hm. lia. }
  pose proof (holds_find airport_key_eq_dec _ _ _ _ _ (proj1 (proj1 Hc1)) Hholds)
    as Hfind.
  assert (Hmiss : fetch_fills self icao f1 (snd (fst r0))).
  { unfold fetch_fills. rewrite getitem_spec, Hfind. cbn [expires fst].
    now rewrite (Qlt_bool_false _ _ Hlate). }
  split; [exact Hmiss|]. unfold fetch_fills in Hmiss.
  destruct (connections_handler_cases mktime n1 self icao f1 (snd (fst r0))
              (snd r0))
    as [(v & Ev & _) | (_ & o1 & log2 & Efetch & Er1)]; [congruence|].
  fold r1 in Er1. rewrite Er1, Efetch. split; reflexivity.
Qed.

End ConnectionsExpiry.

(** Ten minutes after a failed fetch the provider is asked again and
    answers. *)
Lemma connections_expire_witness :
  fst (fst (_connections_today_handler mktime_utc 7 0 "EDDF"
              (mk_fetch example_today 600%Q 600%Q callback_answers)
              (snd (fst (_connections_today_handler mktime_utc 7 0 "EDDF"
                           example_failed_fetch connections_cache_init [])))
              (snd (_connections_today_handler mktime_utc 7 0 "EDDF"
                      example_failed_fetch connections_cache_init []))))
  = fst (_flight_connections_today mktime_utc 7 example_today "EDDF"
           callback_answers
           (snd (_connections_today_handler mktime_utc 7 0 "EDDF"
                   example_failed_fetch connections_cache_init []))).
Proof.
  apply (connections_expire mktime_utc [] [] 7 7 0 "EDDF" example_failed_fetch
           (mk_fetch example_today 600%Q 600%Q callback_answers)
           1793059200 1793750399).
  - reflexivity.
  - vm_compute. reflexivity.
  - discriminate.
Defined.
